(** * Programming TA: feedback ingestion and profile aggregation

    A shallow embedding of the data-handling core of [main.py]: the grade
    that [analyze_code] derives from the model's textual estimate, the
    in-place updates it performs on the session state, the registration
    performed by the sidebar of [main], and the summaries computed by
    [display_student_analytics].

    Text is modelled by [string]; a character is read as the code point
    of the same number (U+0000 to U+00FF).  Python integers are [Z]. *)

From Stdlib Require Import ZArith Ascii String List Bool Lia Permutation Sorted.
From stdpp Require Import base option list sorting gmap strings.

Local Open Scope Z_scope.

(** ** Python exceptions raised by the modelled code *)

Inductive exn : Type :=
| KeyError
| TypeError
| ValueError
| AttributeError.

(** A computation that either raises or returns. *)
Definition result (A : Type) : Type := exn + A.

(** ** Text primitives *)

Module Text.

Definition code_point (c : ascii) : Z := Z.of_N (N_of_ascii c).

(** Decimal digits: in the modelled range of code points the only
    characters of category Nd are ['0'] to ['9']. *)
Definition is_digit (c : ascii) : bool :=
  (48 <=? code_point c) && (code_point c <=? 57).

Definition digit_value (c : ascii) : Z := code_point c - 48.

(** Whitespace that [int] skips around a literal: tab, line feed,
    vertical tab, form feed, carriage return and space, and of the
    characters above U+007F those that are spaces, U+0085 and U+00A0. *)
Definition is_space (c : ascii) : bool :=
  let n := code_point c in
  ((9 <=? n) && (n <=? 13)) || (n =? 32) || (n =? 133) || (n =? 160).

Definition is_slash (c : ascii) : bool := code_point c =? 47.
Definition is_underscore (c : ascii) : bool := code_point c =? 95.
Definition is_plus (c : ascii) : bool := code_point c =? 43.
Definition is_minus (c : ascii) : bool := code_point c =? 45.

(** ["/" in s] *)
Fixpoint contains_slash (s : string) : bool :=
  match s with
  | EmptyString => false
  | String c r => is_slash c || contains_slash r
  end.

(** [s.split("/")[0]]: the text before the first slash, the whole text
    when there is none. *)
Fixpoint before_slash (s : string) : string :=
  match s with
  | EmptyString => EmptyString
  | String c r => if is_slash c then EmptyString else String c (before_slash r)
  end.

Fixpoint lstrip (s : string) : string :=
  match s with
  | EmptyString => EmptyString
  | String c r => if is_space c then lstrip r else s
  end.

Fixpoint all_space (s : string) : bool :=
  match s with
  | EmptyString => true
  | String c r => is_space c && all_space r
  end.

Fixpoint rstrip (s : string) : string :=
  match s with
  | EmptyString => EmptyString
  | String c r => if all_space s then EmptyString else String c (rstrip r)
  end.

Definition strip (s : string) : string := rstrip (lstrip s).

(** The longest prefix of digits. *)
Fixpoint take_digits (s : string) : string :=
  match s with
  | EmptyString => EmptyString
  | String c r => if is_digit c then String c (take_digits r) else EmptyString
  end.

(** [re.search(r'\d+', s)]: the leftmost, longest run of digits, or no
    match. *)
Fixpoint search_digits (s : string) : option string :=
  match s with
  | EmptyString => None
  | String c r => if is_digit c then Some (take_digits s) else search_digits r
  end.

(** Value of a run of digits, most significant first. *)
Fixpoint digits_value (acc : Z) (s : string) : Z :=
  match s with
  | EmptyString => acc
  | String c r => digits_value (10 * acc + digit_value c) r
  end.

Fixpoint contains_minus (s : string) : bool :=
  match s with
  | EmptyString => false
  | String c r => is_minus c || contains_minus r
  end.

Fixpoint all_digits (s : string) : bool :=
  match s with
  | EmptyString => true
  | String c r => is_digit c && all_digits r
  end.

End Text.

(** ** The built-in [int] on text *)

Module PyInt.
Import Text.

(** The interpreter refuses to convert a decimal literal of more digits
    than this (the default of [sys.get_int_max_str_digits]). *)
Definition int_max_str_digits : nat := 4300.

(** The digits of a literal: digits, with single underscores allowed
    between two digits only.  [prev] tells whether the previous
    character was a digit; the result is the value and the number of
    digits read. *)
Fixpoint int_body (prev : bool) (acc : Z) (n : nat) (s : string) : option (Z * nat) :=
  match s with
  | EmptyString => if prev then Some (acc, n) else None
  | String c r =>
      if is_digit c then int_body true (10 * acc + digit_value c) (S n) r
      else if is_underscore c then
             if prev then int_body false acc n r else None
           else None
  end.

Definition int_unsigned (s : string) : result Z :=
  match int_body false 0 0%nat s with
  | Some (v, n) => if (int_max_str_digits <? n)%nat then inl ValueError else inr v
  | None => inl ValueError
  end.

(** [int(s)] for a text [s], base ten: surrounding whitespace is
    dropped, one sign is allowed, anything else raises [ValueError]. *)
Definition int (s : string) : result Z :=
  match strip s with
  | String c r =>
      if is_minus c then
        match int_unsigned r with inr v => inr (- v) | inl e => inl e end
      else if is_plus c then int_unsigned r
      else int_unsigned (String c r)
  | EmptyString => inl ValueError
  end.

End PyInt.

(** ** The grade of a progress entry (lines 165-168 of [analyze_code]) *)

(** [int(g.split("/")[0]) if "/" in g else
     int(re.search(r'\d+', g).group()) if re.search(r'\d+', g) else 0] *)
Definition grade_of_text (g : string) : result Z :=
  if Text.contains_slash g then PyInt.int (Text.before_slash g)
  else match Text.search_digits g with
       | Some m => PyInt.int m
       | None => inr 0
       end.

(** ** Decoded JSON documents

    What [json.loads] returns.  A Python [dict] keeps its keys in insertion
    order, so an object is an association list; lookup takes the first
    binding of a key.  Numbers are the integers (a literal with a fraction
    or an exponent is outside the model; the modelled code only ever
    rejects a number, so any number behaves as [JInt] does). *)

#[warnings="-register-all"] Inductive json : Type :=
| JNull
| JBool (b : bool)
| JInt (n : Z)
| JStr (s : string)
| JList (l : list json)
| JDict (d : list (string * json)).

Module Dict.

Fixpoint get (d : list (string * json)) (k : string) : option json :=
  match d with
  | [] => None
  | (k', v) :: r => if String.eqb k' k then Some v else get r k
  end.

(** [d[k] = v]: an existing key keeps its place, a new one goes last. *)
Fixpoint set (d : list (string * json)) (k : string) (v : json) : list (string * json) :=
  match d with
  | [] => [(k, v)]
  | (k', v') :: r => if String.eqb k' k then (k', v) :: r else (k', v') :: set r k v
  end.

End Dict.

(** [x[k]] for a text key [k]. *)
Definition getitem (x : json) (k : string) : result json :=
  match x with
  | JDict d => match Dict.get d k with Some v => inr v | None => inl KeyError end
  | _ => inl TypeError
  end.

(** [x[k] = v] for a text key [k]. *)
Definition setitem (x : json) (k : string) (v : json) : result json :=
  match x with
  | JDict d => inr (JDict (Dict.set d k v))
  | _ => inl TypeError
  end.

(** [x.get(k, [])] on an object. *)
Definition get_or_empty (x : json) (k : string) : result json :=
  match x with
  | JDict d => inr (default (JList []) (Dict.get d k))
  | _ => inl AttributeError
  end.

Fixpoint chars (s : string) : list json :=
  match s with
  | EmptyString => []
  | String c r => JStr (String c EmptyString) :: chars r
  end.

(** [for issue in x]: the elements of a list, the characters of a text,
    the keys of an object; nothing else can be iterated. *)
Definition iterate (x : json) : result (list json) :=
  match x with
  | JList l => inr l
  | JStr s => inr (chars s)
  | JDict d => inr (map (fun kv => JStr (fst kv)) d)
  | _ => inl TypeError
  end.

(** [[f(issue) for issue in l]], stopping at the first exception. *)
Fixpoint comprehension (f : json -> result json) (l : list json) : result (list json) :=
  match l with
  | [] => inr []
  | x :: r =>
      match f x with
      | inl e => inl e
      | inr y => match comprehension f r with
                 | inl e => inl e
                 | inr ys => inr (y :: ys)
                 end
      end
  end.

Definition is_slash_text (x : json) : bool :=
  match x with
  | JStr s => String.eqb s "/"
  | _ => false
  end.

(** The grade expression on whatever ["grade_estimate"] holds.  Only a
    text has [split] and can be searched; ["/" in g] itself fails on a
    value that is not a container. *)
Definition grade_of (g : json) : result Z :=
  match g with
  | JStr s => grade_of_text s
  | JList l => if existsb is_slash_text l then inl AttributeError else inl TypeError
  | JDict d => if existsb (fun kv => String.eqb (fst kv) "/") d
               then inl AttributeError else inl TypeError
  | _ => inl TypeError
  end.

(** ** Session state *)

Record history_entry : Type := HistoryEntry {
  hist_timestamp : string;
  hist_assignment : string;
  hist_grade_estimate : json;
  key_issues : list json
}.

Record progress_entry : Type := ProgressEntry {
  prog_timestamp : string;
  prog_assignment : string;
  grade : Z
}.

Record profile : Type := Profile {
  history : list history_entry;
  submissions : Z;
  common_issues : gmap string json;
  strengths : gmap string json;
  progress : list progress_entry
}.

Record submission : Type := Submission {
  sub_code : string;
  sub_language : string;
  sub_assignment : string;
  sub_feedback : json;
  sub_timestamp : string
}.

Record feedback_event : Type := FeedbackEvent {
  ev_student_id : string;
  ev_assignment : string;
  ev_timestamp : string;
  ev_grade_estimate : json
}.

(** [st.session_state]: the four entries initialised at lines 21-28.  The
    per-student archive [st.session_state.submissions] is
    [session_submissions] here, the counter of a profile being
    [submissions]. *)
Record session : Type := Session {
  feedback_history : list feedback_event;
  student_profiles : gmap string profile;
  current_student : option string;
  session_submissions : gmap string (list submission)
}.

Definition initial_session : session :=
  {| feedback_history := [];
     student_profiles := ∅;
     current_student := None;
     session_submissions := ∅ |}.

(** The profile literal of lines 143-149 and 229-235. *)
Definition new_profile : profile :=
  {| history := [];
     submissions := 0;
     common_issues := ∅;
     strengths := ∅;
     progress := [] |}.

Definition with_profiles (f : gmap string profile -> gmap string profile) (s : session) : session :=
  {| feedback_history := feedback_history s;
     student_profiles := f (student_profiles s);
     current_student := current_student s;
     session_submissions := session_submissions s |}.

(** [if student_id not in student_profiles: student_profiles[student_id] = {...}] *)
Definition ensure_profile (student_id : string) (s : session) : session :=
  match student_profiles s !! student_id with
  | Some _ => s
  | None => with_profiles (insert student_id new_profile) s
  end.

(** In-place updates of the profile object bound to [student_id]. *)
Definition count_submission (p : profile) : profile :=
  {| history := history p;
     submissions := submissions p + 1;
     common_issues := common_issues p;
     strengths := strengths p;
     progress := progress p |}.

Definition append_history (h : history_entry) (p : profile) : profile :=
  {| history := history p ++ [h];
     submissions := submissions p;
     common_issues := common_issues p;
     strengths := strengths p;
     progress := progress p |}.

Definition append_progress (g : progress_entry) (p : profile) : profile :=
  {| history := history p;
     submissions := submissions p;
     common_issues := common_issues p;
     strengths := strengths p;
     progress := progress p ++ [g] |}.

Definition update_profile (student_id : string) (f : profile -> profile) (s : session) : session :=
  with_profiles (alter f student_id) s.

(** Lines 172-181: create the archive of the student if it is missing,
    then append to it. *)
Definition archive (student_id : string) (s : session) : list submission :=
  default [] (session_submissions s !! student_id).

Definition store_submission (student_id : string) (x : submission) (s : session) : session :=
  {| feedback_history := feedback_history s;
     student_profiles := student_profiles s;
     current_student := current_student s;
     session_submissions :=
       <[student_id := archive student_id s ++ [x]]> (session_submissions s) |}.

Definition log_feedback (e : feedback_event) (s : session) : session :=
  {| feedback_history := feedback_history s ++ [e];
     student_profiles := student_profiles s;
     current_student := current_student s;
     session_submissions := session_submissions s |}.

(** ** Stateful code that may raise

    The session is mutated in place, so what was written before an
    exception stays written: a raising computation still returns the
    session it reached. *)

Definition M (A : Type) : Type := session -> session * result A.

Definition ret {A} (a : A) : M A := fun s => (s, inr a).

Definition bind {A B} (m : M A) (k : A -> M B) : M B :=
  fun s => match m s with
           | (s', inr a) => k a s'
           | (s', inl e) => (s', inl e)
           end.

Definition lift {A} (r : result A) : M A := fun s => (s, r).

Definition modify (f : session -> session) : M unit := fun s => (f s, inr tt).

Notation "'do' x <- m ; k" := (bind m (fun x => k))
  (at level 10, x name, m at level 100, k at level 200, only parsing).

(** ** [analyze_code], from the decoded reply on (lines 135-191) *)

Definition commit (timestamp code language student_id assignment_name : string)
    (feedback_json : json) : M json :=
  do fj <- lift (setitem feedback_json "timestamp" (JStr timestamp));
  do fj <- lift (setitem fj "language" (JStr language));
  do fj <- lift (setitem fj "assignment" (JStr assignment_name));
  do _ <- modify (ensure_profile student_id);
  do _ <- modify (update_profile student_id count_submission);
  do estimate <- lift (getitem fj "grade_estimate");
  do logic_errors <- lift (get_or_empty fj "logic_errors");
  do logic_errors <- lift (iterate logic_errors);
  do descriptions <- lift (comprehension (fun issue => getitem issue "description") logic_errors);
  do misunderstandings <- lift (get_or_empty fj "conceptual_misunderstandings");
  do misunderstandings <- lift (iterate misunderstandings);
  do concepts <- lift (comprehension (fun issue => getitem issue "concept") misunderstandings);
  do _ <- modify (update_profile student_id
            (append_history (HistoryEntry timestamp assignment_name estimate
                                          (descriptions ++ concepts))));
  do g <- lift (grade_of estimate);
  do _ <- modify (update_profile student_id
            (append_progress (ProgressEntry timestamp assignment_name g)));
  do _ <- modify (store_submission student_id
            (Submission code language assignment_name fj timestamp));
  do _ <- modify (log_feedback (FeedbackEvent student_id assignment_name timestamp estimate));
  ret fj.

(** What the provider call of lines 112-133 came to: an exception before
    any content was obtained, or a status together with the outcome of
    [json.loads] on the cleaned content ([None] for [JSONDecodeError]). *)
Inductive api_reply : Type :=
| RequestRaised
| HttpReply (status_code : Z) (decoded : option json).

(** How a call of [analyze_code] ended; Python sees the feedback document
    in the last case and [None] in all others. *)
Inductive outcome : Type :=
| NoApiKey
| ApiError (status_code : Z)
| ParseError
| CallError (e : option exn)
| Feedback (feedback_json : json).

Definition returned (o : outcome) : option json :=
  match o with
  | Feedback fj => Some fj
  | _ => None
  end.

Definition analyze_code (api_key : string) (reply : api_reply) (timestamp : string)
    (code language student_id assignment_name : string) (s : session) : session * outcome :=
  if String.eqb api_key "" then (s, NoApiKey)
  else match reply with
       | RequestRaised => (s, CallError None)
       | HttpReply status_code decoded =>
           if status_code =? 200 then
             match decoded with
             | None => (s, ParseError)
             | Some feedback_json =>
                 match commit timestamp code language student_id assignment_name
                              feedback_json s with
                 | (s', inr fj) => (s', Feedback fj)
                 | (s', inl e) => (s', CallError (Some e))
                 end
             end
           else (s, ApiError status_code)
       end.

(** The "Add Student" button of the sidebar (lines 226-238). *)
Definition add_student (new_student : string) (s : session) : session :=
  if String.eqb new_student "" then s else ensure_profile new_student s.

(** ** Session histories

    The sessions that the interface can reach from the initial state, by
    registrations and calls of [analyze_code].  [ok] selects the calls
    that are allowed to happen, by how they ended. *)

Inductive reachable (ok : outcome -> Prop) : session -> Prop :=
| reach_initial : reachable ok initial_session
| reach_add_student new_student s :
    reachable ok s -> reachable ok (add_student new_student s)
| reach_analyze_code api_key reply timestamp code language student_id assignment_name s s' o :
    reachable ok s ->
    analyze_code api_key reply timestamp code language student_id assignment_name s = (s', o) ->
    ok o ->
    reachable ok s'.

(** Any call at all. *)
Definition any_outcome (o : outcome) : Prop := True.

(** Calls in which the commit block did not raise: the call returned the
    feedback document, or it stopped before the decoded reply was used. *)
Definition no_raise_in_commit (o : outcome) : Prop :=
  match o with
  | CallError (Some _) => False
  | _ => True
  end.

(** ** Student analytics (lines 403-423 and 440-457) *)

(** Lines 403-406: the dashboard is drawn for a profile that has a
    history; for a profile with an empty history the page shows a notice
    and returns, before any metric. *)
Definition has_history (p : profile) : bool :=
  match history p with
  | [] => false
  | _ :: _ => true
  end.

(** The "Latest Grade" metric, [profile["progress"][-1]["grade"]]: shown
    on the dashboard when there is progress. *)
Definition latest_grade (p : profile) : option Z :=
  if has_history p then grade <$> last (progress p) else None.

(** The "Overall Improvement" metric: computed on the dashboard when
    [len(profile["progress"]) > 1], not shown otherwise. *)
Definition improvement (p : profile) : option Z :=
  if has_history p then
    if (1 <? length (progress p))%nat then
      match progress p !! 0%nat, last (progress p) with
      | Some first_entry, Some latest_entry => Some (grade latest_entry - grade first_entry)
      | _, _ => None
      end
    else None
  else None.

(** [all_issues.extend(entry.get("key_issues", []))] over the history. *)
Definition all_issues (p : profile) : list json :=
  concat (map key_issues (history p)).

(** Keys of a Python [dict].  Two values are the same key when they are
    equal and hash alike: [True] is the key [1], a list or an object
    cannot be a key. *)
Inductive dict_key : Type :=
| KNone
| KNum (n : Z)
| KText (s : string).

Global Instance dict_key_eq_dec : EqDecision dict_key.
Proof. solve_decision. Defined.

Definition key_of (x : json) : option dict_key :=
  match x with
  | JNull => Some KNone
  | JBool b => Some (KNum (if b then 1 else 0))
  | JInt n => Some (KNum n)
  | JStr s => Some (KText s)
  | JList _ | JDict _ => None
  end.

(** [issue_counts[issue] += 1] if the key is present, [= 1] otherwise; the
    object first used as the key stays in its place. *)
Fixpoint increment (k : dict_key) (issue : json) (counts : list (json * Z)) : list (json * Z) :=
  match counts with
  | [] => [(issue, 1)]
  | (j, c) :: r =>
      if decide (key_of j = Some k) then (j, c + 1) :: r
      else (j, c) :: increment k issue r
  end.

(** The counting loop of lines 446-451; an issue that cannot be a key
    raises [TypeError]. *)
Fixpoint count_issues (issues : list json) (issue_counts : list (json * Z))
  : result (list (json * Z)) :=
  match issues with
  | [] => inr issue_counts
  | issue :: r =>
      match key_of issue with
      | Some k => count_issues r (increment k issue issue_counts)
      | None => inl TypeError
      end
  end.






(** ** The specification's reading of the issue summary *)

Module Spec.






End Spec.





(** ** The stages of a commit *)

(** The session after line 152: the profile exists and its counter has
    been incremented. *)
Definition counted (student_id : string) (s : session) : session :=
  update_profile student_id count_submission (ensure_profile student_id s).

(** The session after line 159: the history entry has been appended. *)
Definition with_history (student_id : string) (h : history_entry) (s : session) : session :=
  update_profile student_id (append_history h) (counted student_id s).

(** The session after line 189. *)
Definition committed (student_id : string) (h : history_entry) (g : progress_entry)
    (x : submission) (e : feedback_event) (s : session) : session :=
  log_feedback e
    (store_submission student_id x
       (update_profile student_id (append_progress g) (with_history student_id h s))).

(** The profile that the commit works on: the stored one, or the fresh
    one that line 143 creates. *)
Definition profile_before (student_id : string) (s : session) : profile :=
  default new_profile (student_profiles s !! student_id).

(** ** Consistency of a session *)

(** The three sequences of a student are as long as the counter says. *)
Definition lengths_agree (s : session) (student_id : string) (p : profile) : Prop :=
  length (history p) = length (progress p) /\
  length (progress p) = length (archive student_id s) /\
  Z.of_nat (length (history p)) = submissions p.

Definition consistent (s : session) : Prop :=
  (forall student_id p,
      student_profiles s !! student_id = Some p -> lengths_agree s student_id p) /\
  (forall student_id,
      student_profiles s !! student_id = None -> session_submissions s !! student_id = None).

(** Every progress entry of every profile has its history entry. *)
Definition history_covers_progress (s : session) : Prop :=
  forall student_id p,
    student_profiles s !! student_id = Some p ->
    (length (progress p) <= length (history p))%nat.

(** ** Sample data *)

(** A reply as the prompt asks for it, with the given grade text. *)
Definition sample_feedback (estimate : string) : json :=
  JDict [("overall_feedback"%string, JStr "Good work");
         ("grade_estimate"%string, JStr estimate)].

Definition sample_call (estimate student_id : string) (s : session) : session * outcome :=
  analyze_code "gsk" (HttpReply 200 (Some (sample_feedback estimate)))
    "2024-05-01 10:00:00" "print(1)" "python" student_id "A1" s.

Definition sample_progress (grades : list Z) : profile :=
  {| history := [];
     submissions := 0;
     common_issues := ∅;
     strengths := ∅;
     progress := map (ProgressEntry "" "") grades |}.

(** A reply that is a JSON object but lacks ["grade_estimate"]. *)
Definition feedback_without_grade : json :=
  JDict [("overall_feedback"%string, JStr "Good work")].

Definition call_without_grade (student_id : string) (s : session) : session * outcome :=
  analyze_code "gsk" (HttpReply 200 (Some feedback_without_grade))
    "2024-05-01 10:00:00" "print(1)" "python" student_id "A1" s.


(** ** Counting, for the statements about the issue chart *)







(** ** Cleaning the reply before it is decoded (lines 127-130) *)

Module Reply.

(** The characters that [str.strip] removes: those for which [str.isspace]
    holds, in the modelled range of code points. *)
Definition is_whitespace (c : ascii) : bool :=
  let n := Text.code_point c in
  ((9 <=? n) && (n <=? 13)) || ((28 <=? n) && (n <=? 32)) || (n =? 133) || (n =? 160).

Definition is_backtick (c : ascii) : bool := Text.code_point c =? 96.

Fixpoint lstrip (s : string) : string :=
  match s with
  | EmptyString => EmptyString
  | String c r => if is_whitespace c then lstrip r else s
  end.

Fixpoint all_whitespace (s : string) : bool :=
  match s with
  | EmptyString => true
  | String c r => is_whitespace c && all_whitespace r
  end.

Fixpoint rstrip (s : string) : string :=
  match s with
  | EmptyString => EmptyString
  | String c r => if all_whitespace s then EmptyString else String c (rstrip r)
  end.

(** [s.strip()] *)
Definition strip (s : string) : string := rstrip (lstrip s).

(** Whether [s] begins with [pat]. *)
Fixpoint starts_with (pat s : string) : bool :=
  match pat, s with
  | EmptyString, _ => true
  | String _ _, EmptyString => false
  | String a pat', String b s' => Ascii.eqb a b && starts_with pat' s'
  end.

(** Whether [pat] occurs somewhere in [s]. *)
Fixpoint occurs (pat s : string) : bool :=
  starts_with pat s ||
  match s with
  | EmptyString => false
  | String _ r => occurs pat r
  end.

Fixpoint skip (n : nat) (s : string) : string :=
  match n, s with
  | O, _ => s
  | S _, EmptyString => EmptyString
  | S n', String _ r => skip n' r
  end.

(** The scan of [re.sub(pat, '', s)] for a pattern without special
    characters: [pending] characters of a match are still to be dropped;
    otherwise a match that begins here is dropped and the scan goes on after
    it, and a character that begins no match is kept. *)
Fixpoint remove_from (pat : string) (pending : nat) (s : string) : string :=
  match s with
  | EmptyString => EmptyString
  | String c r =>
      match pending with
      | S k => remove_from pat k r
      | O => if starts_with pat s then remove_from pat (String.length pat - 1) r
             else String c (remove_from pat 0 r)
      end
  end.

(** [re.sub(pat, '', s)]; the empty pattern removes nothing. *)
Definition remove_all (pat s : string) : string :=
  match pat with
  | EmptyString => s
  | _ => remove_from pat 0 s
  end.

Definition fence : string := "```".
Definition json_fence : string := "```json".

(** Lines 128-130: both fence marks are removed wherever they occur, then
    the text is stripped. *)
Definition clean_response (feedback : string) : string :=
  strip (remove_all fence (remove_all json_fence feedback)).

End Reply.

(** ** Characters of an integer literal *)

(** The characters that can be part of a text that [int] accepts: digits,
    the whitespace it skips, a sign and the underscore. *)
Definition is_literal_char (c : ascii) : bool :=
  Text.is_digit c || Text.is_space c || Text.is_plus c || Text.is_minus c
  || Text.is_underscore c.

Fixpoint all_literal (s : string) : bool :=
  match s with
  | EmptyString => true
  | String c r => is_literal_char c && all_literal r
  end.

(** ** The parts of a commit, for the statements about its result *)

(** The document after lines 137-139. *)
Definition attached (timestamp language assignment_name : string)
    (d : list (string * json)) : list (string * json) :=
  Dict.set (Dict.set (Dict.set d "timestamp" (JStr timestamp)) "language" (JStr language))
           "assignment" (JStr assignment_name).

(** The key issues of lines 157-158: the descriptions of the logic errors,
    then the concepts of the misunderstandings. *)
Definition extract_key_issues (fj : json) : result (list json) :=
  match get_or_empty fj "logic_errors" with
  | inl e => inl e
  | inr logic_errors =>
      match iterate logic_errors with
      | inl e => inl e
      | inr logic_errors =>
          match comprehension (fun issue => getitem issue "description") logic_errors with
          | inl e => inl e
          | inr descriptions =>
              match get_or_empty fj "conceptual_misunderstandings" with
              | inl e => inl e
              | inr misunderstandings =>
                  match iterate misunderstandings with
                  | inl e => inl e
                  | inr misunderstandings =>
                      match comprehension (fun issue => getitem issue "concept")
                                          misunderstandings with
                      | inl e => inl e
                      | inr concepts => inr (descriptions ++ concepts)
                      end
                  end
              end
          end
      end
  end.

(** The keys that [analyze_code] writes into the document. *)
Definition is_attached_key (k : string) : bool :=
  String.eqb k "timestamp" || String.eqb k "language" || String.eqb k "assignment".

(** ** The history shown to the model (lines 63-74) *)

(** [student_profiles[student_id].get("history", [])] when the student has
    a profile, [[]] otherwise. *)
Definition student_history (student_id : string) (s : session) : list history_entry :=
  match student_profiles s !! student_id with
  | Some p => history p
  | None => []
  end.

(** [student_history[-3:] if len(student_history) > 0 else []] *)
Definition prompt_history (student_history : list history_entry) : list history_entry :=
  if (0 <? length student_history)%nat
  then drop (length student_history - 3) student_history
  else [].

(** ** The list of recent submissions (lines 465-474) *)

(** [for i, entry in enumerate(reversed(profile["history"]))], stopped at
    [i >= 5]: the five newest entries, newest first. *)
Definition recent_submissions (p : profile) : list history_entry :=
  take 5 (reverse (history p)).

(** ** The sidebar selection and the submission page *)

(** Lines 241-246: the student chosen in the selection box becomes the
    current student. *)
Definition select_student (selected_student : string) (s : session) : session :=
  if decide (Some selected_student = current_student s) then s
  else {| feedback_history := feedback_history s;
          student_profiles := student_profiles s;
          current_student := Some selected_student;
          session_submissions := session_submissions s |}.

(** The part of [display_code_submission] that acts on the session (lines
    269-293): without a current student there is only a warning; with one,
    a click on "Analyze Code" with some code calls [analyze_code] for that
    student. *)
Definition display_code_submission (analyze_clicked : bool)
    (api_key : string) (reply : api_reply) (timestamp : string)
    (code language assignment_name : string) (s : session) : session * option outcome :=
  match current_student s with
  | None => (s, None)
  | Some student_id =>
      if String.eqb student_id "" then (s, None)
      else if analyze_clicked && negb (String.eqb code "") then
             match analyze_code api_key reply timestamp code language student_id
                                assignment_name s with
             | (s', o) => (s', Some o)
             end
           else (s, None)
  end.

(** The sessions reached through the pages: students are added in the
    sidebar, one of the added students is selected in the selection box,
    code is submitted on the submission page. *)
Inductive page_reachable : session -> Prop :=
| page_initial : page_reachable initial_session
| page_add_student new_student s :
    page_reachable s -> page_reachable (add_student new_student s)
| page_select_student selected_student s :
    page_reachable s ->
    is_Some (student_profiles s !! selected_student) ->
    page_reachable (select_student selected_student s)
| page_submit analyze_clicked api_key reply timestamp code language assignment_name s :
    page_reachable s ->
    page_reachable
      (display_code_submission analyze_clicked api_key reply timestamp code language
         assignment_name s).1.

(** ** The panel of previous submissions (lines 299-307) *)

(** [f"{sub['assignment']} - {sub['timestamp']}"] *)
Definition submission_label (x : submission) : string :=
  sub_assignment x +:+ " - " +:+ sub_timestamp x.

(** [l.index(x)]: the first position of [x]; [None] stands for
    [ValueError]. *)
Fixpoint index_of (x : string) (l : list string) : option nat :=
  match l with
  | [] => None
  | y :: r => if String.eqb y x then Some 0%nat else S <$> index_of x r
  end.

(** The submission that the panel shows when the option at position
    [chosen] is selected: the selection box gives back the label of that
    option, and the panel looks the label up again. *)
Definition shown_submission (submissions : list submission) (chosen : nat)
  : option submission :=
  let submission_options := map submission_label submissions in
  match submission_options !! chosen with
  | Some selected_submission =>
      match index_of selected_submission submission_options with
      | Some selected_index => submissions !! selected_index
      | None => None
      end
  | None => None
  end.

(** ** The class overview (lines 486-487 and 526-527) *)

(** [len(st.session_state.student_profiles)] *)
Definition total_students (s : session) : nat := size (student_profiles s).

(** [sum(profile["submissions"] for profile in student_profiles.values())] *)
Definition add_counter (_ : string) (p : profile) (acc : Z) : Z := submissions p + acc.

Definition total_submissions (s : session) : Z :=
  map_fold add_counter 0 (student_profiles s).

(** Order of the "Recent Feedback" table: the later timestamp first, texts
    being compared character by character. *)
Definition newest_first (a b : feedback_event) : Prop :=
  String.le (ev_timestamp b) (ev_timestamp a).

(** [sorted(l, key=lambda x: x["timestamp"], reverse=True)]: the sort is
    stable, also in reverse, so an event goes before the first event that
    is not later than it. *)
Fixpoint insert_newest (e : feedback_event) (l : list feedback_event) : list feedback_event :=
  match l with
  | [] => [e]
  | y :: r =>
      if String.leb (ev_timestamp y) (ev_timestamp e) then e :: y :: r
      else y :: insert_newest e r
  end.

Definition sorted_newest_first (l : list feedback_event) : list feedback_event :=
  foldr insert_newest [] l.

(** The rows of the "Recent Feedback" table, [sorted(...)[:10]].  The
    page returns at lines 481-483 when there is no profile at all, before
    it comes to the table: no row is shown then. *)
Definition recent_feedback (s : session) : list feedback_event :=
  if (total_students s =? 0)%nat then []
  else take 10 (sorted_newest_first (feedback_history s)).

(** A log in which every entry is strictly later than the entries before
    it. *)
Definition strictly_later (a b : feedback_event) : Prop :=
  String.leb (ev_timestamp b) (ev_timestamp a) = false.

(** The events of a log that carry the time [t]. *)
Definition events_at (t : string) (l : list feedback_event) : list feedback_event :=
  filter (fun e => ev_timestamp e = t) l.

(** ** What the panel reads from an archived document (lines 313-317) *)

(** An archived submission whose document holds a textual grade and the
    time, language and assignment of the submission itself. *)
Definition well_archived (x : submission) : Prop :=
  (exists text, getitem (sub_feedback x) "grade_estimate" = inr (JStr text)) /\
  getitem (sub_feedback x) "timestamp" = inr (JStr (sub_timestamp x)) /\
  getitem (sub_feedback x) "language" = inr (JStr (sub_language x)) /\
  getitem (sub_feedback x) "assignment" = inr (JStr (sub_assignment x)).

(** ** The feedback tab (lines 322-383)

    What the tab puts on the page is modelled by the calls it makes, each
    with the values that it formats into its text, in the order of the
    text; how a value is formatted is outside the model.  An exception is
    not caught by the page: it ends the tab after the calls made so far. *)

Inductive widget : Type :=
| StSuccess (values : list json)
| StWrite (values : list json)
| StInfo (values : list json)
| StWarning (values : list json)
| StError (values : list json)
| StMarkdown (values : list json)
| StExpander (values : list json)
| StDivider.

(** The truth value of a decoded value. *)
Definition truthy (x : json) : bool :=
  match x with
  | JNull => false
  | JBool b => b
  | JInt n => negb (n =? 0)
  | JStr s => negb (String.eqb s "")
  | JList l => match l with [] => false | _ => true end
  | JDict d => match d with [] => false | _ => true end
  end.

(** [x.get(k)] *)
Definition get_or_none (x : json) (k : string) : result json :=
  match x with
  | JDict d => inr (default JNull (Dict.get d k))
  | _ => inl AttributeError
  end.

(** [len(x)] *)
Definition len (x : json) : result Z :=
  match x with
  | JStr s => inr (Z.of_nat (String.length s))
  | JList l => inr (Z.of_nat (length l))
  | JDict d => inr (Z.of_nat (length d))
  | _ => inl TypeError
  end.

(** Code that writes to the page and may raise. *)
Definition page (A : Type) : Type := list widget * result A.

Definition page_ret {A} (a : A) : page A := ([], inr a).

Definition page_bind {A B} (m : page A) (k : A -> page B) : page B :=
  match m with
  | (shown, inl e) => (shown, inl e)
  | (shown, inr a) => match k a with (more, r) => (shown ++ more, r) end
  end.

Definition value {A} (r : result A) : page A := ([], r).

Definition show (w : widget) : page unit := ([w], inr tt).

Notation "'on_page' x <- m ; k" := (page_bind m (fun x => k))
  (at level 10, x name, m at level 100, k at level 200, only parsing).

(** [for item in items: body(item)] *)
Fixpoint for_each (body : json -> page unit) (items : list json) : page unit :=
  match items with
  | [] => page_ret tt
  | item :: r => on_page _ <- body item; for_each body r
  end.

(** [if feedback.get(field) and len(feedback[field]) > 0: block] *)
Definition if_nonempty (feedback : json) (field : string) (block : json -> page unit)
  : page unit :=
  on_page v <- value (get_or_none feedback field);
  if truthy v then
    on_page n <- value (len v);
    if 0 <? n then block v else page_ret tt
  else page_ret tt.

(** Lines 335-338 and 350-353: an issue with a line. *)
Definition line_issue (message : list json -> widget) (issue : json) : page unit :=
  on_page line <- value (getitem issue "line");
  on_page description <- value (getitem issue "description");
  on_page _ <- show (message [line; description]);
  on_page suggestion <- value (getitem issue "suggestion");
  on_page _ <- show (StWrite [suggestion]);
  show StDivider.

(** Lines 342-346 and 357-361: an issue with affected lines. *)
Definition lines_issue (message : list json -> widget) (issue : json) : page unit :=
  on_page affected_lines <- value (getitem issue "affected_lines");
  on_page affected <- value (iterate affected_lines);
  on_page description <- value (getitem issue "description");
  on_page _ <- show (message [JList affected; description]);
  on_page suggestion <- value (getitem issue "suggestion");
  on_page _ <- show (StWrite [suggestion]);
  show StDivider.

(** An expander whose title holds the number of issues, and one entry for
    each issue. *)
Definition counted_issues (entry : json -> page unit) (issues : json) : page unit :=
  on_page n <- value (len issues);
  on_page _ <- show (StExpander [JInt n]);
  on_page items <- value (iterate issues);
  for_each entry items.

(** Lines 366-373. *)
Definition misunderstanding (concept : json) : page unit :=
  on_page name <- value (getitem concept "concept");
  on_page _ <- show (StError [name]);
  on_page description <- value (getitem concept "description");
  on_page _ <- show (StWrite [description]);
  on_page resources <- value (get_or_none concept "resources");
  on_page _ <-
    (if truthy resources then
       on_page _ <- show (StWrite []);
       on_page items <- value (iterate resources);
       for_each (fun resource => show (StWrite [resource])) items
     else page_ret tt);
  show StDivider.

(** Lines 378-383. *)
Definition suggested_resource (resource : json) : page unit :=
  on_page title <- value (getitem resource "title");
  on_page _ <- show (StWrite [title]);
  on_page reason <- value (getitem resource "reason");
  on_page _ <- show (StWrite [reason]);
  on_page url <- value (get_or_none resource "url");
  on_page _ <-
    (if truthy url then
       on_page url <- value (getitem resource "url");
       show (StMarkdown [url])
     else page_ret tt);
  show StDivider.

Definition plain_expander (entry : json -> page unit) (issues : json) : page unit :=
  on_page _ <- show (StExpander []);
  on_page items <- value (iterate issues);
  for_each entry items.

(** The feedback tab for the document [feedback]. *)
Definition feedback_tab (feedback : json) : page unit :=
  on_page positive <- value (get_or_none feedback "positive_aspects");
  on_page _ <-
    (if truthy positive then
       on_page _ <- show (StSuccess []);
       on_page items <- value (iterate positive);
       for_each (fun item => show (StWrite [item])) items
     else page_ret tt);
  on_page overall <- value (getitem feedback "overall_feedback");
  on_page _ <- show (StInfo [overall]);
  on_page _ <- if_nonempty feedback "syntax_errors" (counted_issues (line_issue StWarning));
  on_page _ <- if_nonempty feedback "logic_errors" (counted_issues (lines_issue StError));
  on_page _ <- if_nonempty feedback "style_issues" (counted_issues (line_issue StInfo));
  on_page _ <- if_nonempty feedback "efficiency_concerns"
                 (counted_issues (lines_issue StWarning));
  on_page _ <- if_nonempty feedback "conceptual_misunderstandings"
                 (plain_expander misunderstanding);
  if_nonempty feedback "suggested_resources" (plain_expander suggested_resource).

(** A field of the document that the tab passes over: absent, or holding
    a value that counts as false (null, an empty list, an empty text). *)
Definition passed_over (d : list (string * json)) (field : string) : Prop :=
  truthy (default JNull (Dict.get d field)) = false.



(** ** History and progress, entry by entry *)

(** A progress entry that belongs to a history entry: the same time and
    assignment, and the grade read from the textual grade of the history
    entry. *)
Definition belongs_to (h : history_entry) (g : progress_entry) : Prop :=
  hist_timestamp h = prog_timestamp g /\
  hist_assignment h = prog_assignment g /\
  grade_of (hist_grade_estimate h) = inr (grade g).
(** * Properties *)

(** ** The grade expression on the examples of the specification *)

Example grade_85 : grade_of_text "85/100" = inr 85.
Proof. reflexivity. Qed.

Example grade_100 : grade_of_text "100/100" = inr 100.
Proof. reflexivity. Qed.

Example grade_72 : grade_of_text "Grade: 72 out of 100" = inr 72.
Proof. reflexivity. Qed.

Example grade_no_digit : grade_of_text "pending" = inr 0.
Proof. reflexivity. Qed.

Example grade_padded : grade_of_text " 85 /100" = inr 85.
Proof. reflexivity. Qed.

(** ** The stages of a commit *)

Lemma commit_stages timestamp code language student_id assignment_name feedback_json s s' r :
  commit timestamp code language student_id assignment_name feedback_json s = (s', r) ->
  (s' = s /\ r = inl TypeError /\ forall d, feedback_json <> JDict d) \/
  (exists e, s' = counted student_id s /\ r = inl e) \/
  (exists e estimate issues,
      s' = with_history student_id
             (HistoryEntry timestamp assignment_name estimate issues) s /\
      r = inl e /\ grade_of estimate = inl e) \/
  (exists fj estimate issues g,
      r = inr fj /\
      getitem fj "grade_estimate" = inr estimate /\
      grade_of estimate = inr g /\
      s' = committed student_id
             (HistoryEntry timestamp assignment_name estimate issues)
             (ProgressEntry timestamp assignment_name g)
             (Submission code language assignment_name fj timestamp)
             (FeedbackEvent student_id assignment_name timestamp estimate) s).
Proof.
  unfold commit, bind, lift, modify, ret.
  destruct feedback_json as [| | | | |d]; simpl;
    try (intros [= <- <-]; left; repeat split; congruence).
  repeat match goal with
         | |- context [match ?x with inl _ => _ | inr _ => _ end] =>
             destruct x eqn:?; simpl
         end;
    intros [= <- <-];
    try (right; left; eexists; split; reflexivity).
  - right; right; left. eexists _, _, _. repeat split; eauto.
  - right; right; right. eexists _, _, _, _. repeat split; eauto.
Qed.

Lemma analyze_code_stages api_key reply timestamp code language student_id assignment_name s s' o :
  analyze_code api_key reply timestamp code language student_id assignment_name s = (s', o) ->
  (s' = s /\
   (o = NoApiKey \/ (exists c, o = ApiError c) \/ o = ParseError \/
    o = CallError None \/ o = CallError (Some TypeError))) \/
  (exists e, s' = counted student_id s /\ o = CallError (Some e)) \/
  (exists e estimate issues,
      s' = with_history student_id
             (HistoryEntry timestamp assignment_name estimate issues) s /\
      o = CallError (Some e) /\ grade_of estimate = inl e) \/
  (exists fj estimate issues g,
      o = Feedback fj /\
      getitem fj "grade_estimate" = inr estimate /\
      grade_of estimate = inr g /\
      s' = committed student_id
             (HistoryEntry timestamp assignment_name estimate issues)
             (ProgressEntry timestamp assignment_name g)
             (Submission code language assignment_name fj timestamp)
             (FeedbackEvent student_id assignment_name timestamp estimate) s).
Proof.
  unfold analyze_code.
  destruct (String.eqb api_key ""); [intros [= <- <-]; left; auto |].
  destruct reply as [|status_code decoded]; [intros [= <- <-]; left; auto 6 |].
  destruct (status_code =? 200); [| intros [= <- <-]; left; eauto 6].
  destruct decoded as [feedback_json|]; [| intros [= <- <-]; left; auto 6].
  destruct (commit _ _ _ _ _ _ _) as [s1 r] eqn:Hc.
  apply commit_stages in Hc.
  destruct Hc as [(-> & -> & _) | [(e & -> & ->) | [(e & est & iss & -> & -> & Hg)
                 | (fj & est & iss & g & -> & Hget & Hg & ->)]]];
    intros [= <- <-].
  - left; auto 6.
  - right; left; eauto.
  - right; right; left; eauto 8.
  - right; right; right; eauto 10.
Qed.

Section Lookups.
Variable student_id : string.

Lemma update_profile_lookup f s :
  student_profiles (update_profile student_id f s) !! student_id
  = f <$> student_profiles s !! student_id.
Proof. unfold update_profile; simpl. apply lookup_alter_eq. Qed.

Lemma update_profile_lookup_ne f s other :
  other <> student_id ->
  student_profiles (update_profile student_id f s) !! other = student_profiles s !! other.
Proof. intros Hne. unfold update_profile; simpl. by apply lookup_alter_ne. Qed.

Lemma ensure_profile_lookup s :
  student_profiles (ensure_profile student_id s) !! student_id
  = Some (profile_before student_id s).
Proof.
  unfold ensure_profile, profile_before.
  destruct (student_profiles s !! student_id) eqn:E; simpl; [done |].
  apply lookup_insert_eq.
Qed.

Lemma ensure_profile_lookup_ne s other :
  other <> student_id ->
  student_profiles (ensure_profile student_id s) !! other = student_profiles s !! other.
Proof.
  intros Hne. unfold ensure_profile.
  destruct (student_profiles s !! student_id); simpl; [done |].
  by apply lookup_insert_ne.
Qed.

Lemma ensure_profile_registered s :
  is_Some (student_profiles s !! student_id) -> ensure_profile student_id s = s.
Proof. intros [p Hp]. unfold ensure_profile. by rewrite Hp. Qed.

Lemma ensure_profile_idempotent s :
  ensure_profile student_id (ensure_profile student_id s) = ensure_profile student_id s.
Proof. apply ensure_profile_registered. rewrite ensure_profile_lookup. eauto. Qed.

Lemma counted_lookup s :
  student_profiles (counted student_id s) !! student_id
  = Some (count_submission (profile_before student_id s)).
Proof.
  unfold counted. by rewrite update_profile_lookup, ensure_profile_lookup.
Qed.

Lemma counted_lookup_ne s other :
  other <> student_id ->
  student_profiles (counted student_id s) !! other = student_profiles s !! other.
Proof.
  intros Hne. unfold counted.
  rewrite update_profile_lookup_ne by done. by apply ensure_profile_lookup_ne.
Qed.

Lemma with_history_lookup s h :
  student_profiles (with_history student_id h s) !! student_id
  = Some (append_history h (count_submission (profile_before student_id s))).
Proof.
  unfold with_history. by rewrite update_profile_lookup, counted_lookup.
Qed.

Lemma with_history_lookup_ne s h other :
  other <> student_id ->
  student_profiles (with_history student_id h s) !! other = student_profiles s !! other.
Proof.
  intros Hne. unfold with_history.
  rewrite update_profile_lookup_ne by done. by apply counted_lookup_ne.
Qed.

Lemma committed_lookup s h g x e :
  student_profiles (committed student_id h g x e s) !! student_id
  = Some (append_progress g
            (append_history h (count_submission (profile_before student_id s)))).
Proof.
  unfold committed, log_feedback, store_submission; cbn [student_profiles].
  by rewrite update_profile_lookup, with_history_lookup.
Qed.

Lemma committed_lookup_ne s h g x e other :
  other <> student_id ->
  student_profiles (committed student_id h g x e s) !! other = student_profiles s !! other.
Proof.
  intros Hne. unfold committed, log_feedback, store_submission; cbn [student_profiles].
  rewrite update_profile_lookup_ne by done. by apply with_history_lookup_ne.
Qed.

Lemma ensure_profile_archives s :
  session_submissions (ensure_profile student_id s) = session_submissions s.
Proof. unfold ensure_profile. by destruct (student_profiles s !! student_id). Qed.

Lemma ensure_profile_log s :
  feedback_history (ensure_profile student_id s) = feedback_history s.
Proof. unfold ensure_profile. by destruct (student_profiles s !! student_id). Qed.

Lemma ensure_profile_selection s :
  current_student (ensure_profile student_id s) = current_student s.
Proof. unfold ensure_profile. by destruct (student_profiles s !! student_id). Qed.

Lemma counted_archives s : session_submissions (counted student_id s) = session_submissions s.
Proof. apply ensure_profile_archives. Qed.

Lemma with_history_archives s h :
  session_submissions (with_history student_id h s) = session_submissions s.
Proof. apply ensure_profile_archives. Qed.

Lemma committed_archive s h g x e :
  archive student_id (committed student_id h g x e s) = archive student_id s ++ [x].
Proof.
  unfold archive at 1, committed; simpl. rewrite lookup_insert_eq; simpl.
  unfold archive; simpl. by rewrite ensure_profile_archives.
Qed.

Lemma committed_archive_ne s h g x e other :
  other <> student_id ->
  session_submissions (committed student_id h g x e s) !! other
  = session_submissions s !! other.
Proof.
  intros Hne. unfold committed; simpl. rewrite lookup_insert_ne by done.
  by rewrite ensure_profile_archives.
Qed.

Lemma committed_log s h g x e :
  feedback_history (committed student_id h g x e s) = feedback_history s ++ [e].
Proof. unfold committed; simpl. by rewrite ensure_profile_log. Qed.

End Lookups.

(** ** What one call of [analyze_code] can change *)

Lemma analyze_code_effect api_key reply timestamp code language student_id assignment_name s s' o :
  analyze_code api_key reply timestamp code language student_id assignment_name s = (s', o) ->
  (forall other, other <> student_id ->
     student_profiles s' !! other = student_profiles s !! other /\
     session_submissions s' !! other = session_submissions s !! other) /\
  (student_profiles s' !! student_id = student_profiles s !! student_id \/
   exists p', student_profiles s' !! student_id = Some p' /\
              common_issues p' = common_issues (profile_before student_id s) /\
              strengths p' = strengths (profile_before student_id s)) /\
  (session_submissions s' !! student_id = session_submissions s !! student_id \/
   is_Some (student_profiles s' !! student_id) /\
   exists x, session_submissions s' !! student_id = Some (archive student_id s ++ [x])) /\
  current_student s' = current_student s /\
  (exists l, feedback_history s' = feedback_history s ++ l).
Proof.
  intros H. apply analyze_code_stages in H.
  destruct H as [(-> & _) | [(e & -> & _) | [(e & est & iss & -> & _)
               | (fj & est & iss & g & _ & _ & _ & ->)]]].
  - repeat split; auto. exists []. by rewrite app_nil_r.
  - repeat split.
    + by apply counted_lookup_ne.
    + by rewrite counted_archives.
    + right. eexists. split; [apply counted_lookup | done].
    + left. by rewrite counted_archives.
    + apply ensure_profile_selection.
    + exists []. rewrite app_nil_r. apply ensure_profile_log.
  - repeat split.
    + by apply with_history_lookup_ne.
    + by rewrite with_history_archives.
    + right. eexists. split; [apply with_history_lookup | done].
    + left. by rewrite with_history_archives.
    + apply ensure_profile_selection.
    + exists []. rewrite app_nil_r. apply ensure_profile_log.
  - repeat split.
    + by apply committed_lookup_ne.
    + by apply committed_archive_ne.
    + right. eexists. split; [apply committed_lookup | done].
    + right. split; [rewrite committed_lookup; eauto |].
      eexists. unfold committed; simpl. rewrite lookup_insert_eq.
      unfold archive; simpl. by rewrite ensure_profile_archives.
    + unfold committed; simpl. apply ensure_profile_selection.
    + eexists. apply committed_log.
Qed.

Lemma add_student_lookup_ne new_student s other :
  other <> new_student ->
  student_profiles (add_student new_student s) !! other = student_profiles s !! other.
Proof.
  intros Hne. unfold add_student. destruct (String.eqb new_student ""); [done |].
  by apply ensure_profile_lookup_ne.
Qed.

Lemma add_student_archives new_student s :
  session_submissions (add_student new_student s) = session_submissions s.
Proof.
  unfold add_student. destruct (String.eqb new_student ""); [done |].
  apply ensure_profile_archives.
Qed.

Lemma add_student_keeps new_student s student_id :
  is_Some (student_profiles s !! student_id) ->
  student_profiles (add_student new_student s) !! student_id = student_profiles s !! student_id.
Proof.
  intros Hs. destruct (decide (student_id = new_student)) as [-> |Hne].
  - unfold add_student. destruct (String.eqb new_student ""); [done |].
    by rewrite ensure_profile_registered.
  - by apply add_student_lookup_ne.
Qed.

(** An archive exists only for a student that has a profile. *)
Lemma archived_is_registered s :
  reachable any_outcome s ->
  forall student_id,
    student_profiles s !! student_id = None -> session_submissions s !! student_id = None.
Proof.
  induction 1 as [|n s Hr IH|k r ts c l id a s s' o Hr IH Hcall _]; intros sid Hnone.
  - apply lookup_empty.
  - rewrite add_student_archives. apply IH.
    destruct (student_profiles s !! sid) eqn:E; [| done].
    rewrite add_student_keeps in Hnone by eauto. congruence.
  - apply analyze_code_effect in Hcall as (Hother & Hprof & Harch & _ & _).
    destruct (decide (sid = id)) as [-> |Hne].
    + destruct Harch as [-> |[[p Hp] _]]; [| congruence].
      apply IH. destruct Hprof as [<- |(p' & Hp' & _)]; [done | congruence].
    + destruct (Hother sid Hne) as [Hp ->]. apply IH. by rewrite <- Hp.
Qed.

(** ** Registration *)

(** C9: registration is idempotent.  Adding a student a second time, or
    submitting for a student that has a profile, leaves the session as it
    is, so the existing profile is neither overwritten nor extended; the
    first registration of a student stores a profile whose history and
    progress are empty and whose counter is 0, and in a session reached
    through the interface the student's archive is empty as well. *)
Theorem registration_idempotent (new_student : string) (s : session) :
  add_student new_student (add_student new_student s) = add_student new_student s /\
  ensure_profile new_student (ensure_profile new_student s) = ensure_profile new_student s /\
  (is_Some (student_profiles s !! new_student) ->
     add_student new_student s = s /\ ensure_profile new_student s = s) /\
  (new_student <> ""%string -> student_profiles s !! new_student = None ->
     student_profiles (add_student new_student s) !! new_student = Some new_profile /\
     history new_profile = [] /\ progress new_profile = [] /\ submissions new_profile = 0 /\
     (reachable any_outcome s -> archive new_student (add_student new_student s) = [])).
Proof.
  assert (Hreg : is_Some (student_profiles s !! new_student) ->
                 add_student new_student s = s /\ ensure_profile new_student s = s).
  { intros Hs. unfold add_student. rewrite ensure_profile_registered by done.
    by destruct (String.eqb new_student ""). }
  split; [| split; [| split]]; [| apply ensure_profile_idempotent | exact Hreg |].
  - unfold add_student. destruct (String.eqb new_student "") eqn:E; [done |].
    apply ensure_profile_idempotent.
  - intros Hne Hnone. unfold add_student.
    destruct (String.eqb_spec new_student ""); [done |].
    repeat split.
    + rewrite ensure_profile_lookup. unfold profile_before. by rewrite Hnone.
    + intros Hr. unfold archive. rewrite ensure_profile_archives.
      by rewrite (archived_is_registered s Hr new_student Hnone).
Qed.

Lemma registration_idempotent_witness :
  student_profiles (add_student "S1" initial_session) !! "S1"%string = Some new_profile /\
  archive "S1" (add_student "S1" initial_session) = [] /\
  add_student "S1" (add_student "S1" initial_session) = add_student "S1" initial_session.
Proof.
  destruct (registration_idempotent "S1" initial_session) as (Hidem & _ & _ & Hfresh).
  destruct Hfresh as (Hp & _ & _ & _ & Harch); [discriminate | reflexivity |].
  split; [exact Hp | split; [apply Harch; constructor | exact Hidem]].
Defined.

(** ** The frame of a call *)

Lemma mappings_stay_empty s :
  reachable any_outcome s ->
  forall student_id p,
    student_profiles s !! student_id = Some p -> common_issues p = ∅ /\ strengths p = ∅.
Proof.
  induction 1 as [|n s Hr IH|k r ts c l id a s s' o Hr IH Hcall _]; intros sid p Hp.
  - exfalso. exact (lookup_empty_Some (M := gmap string) sid p Hp).
  - destruct (student_profiles s !! sid) as [q|] eqn:E.
    + rewrite add_student_keeps in Hp by eauto. eauto.
    + destruct (decide (sid = n)) as [-> |Hne].
      * unfold add_student in Hp. destruct (String.eqb n ""); [congruence |].
        rewrite ensure_profile_lookup in Hp. unfold profile_before in Hp.
        rewrite E in Hp. by injection Hp as <-.
      * rewrite add_student_lookup_ne in Hp by done. congruence.
  - apply analyze_code_effect in Hcall as (Hother & Hprof & _).
    destruct (decide (sid = id)) as [-> |Hne].
    + destruct Hprof as [Heq|(p' & Hp' & Hc & Hs)].
      * rewrite Heq in Hp. eauto.
      * assert (p = p') as -> by congruence.
        rewrite Hc, Hs. unfold profile_before.
        destruct (student_profiles s !! id) as [q|] eqn:E; simpl; [exact (IH id q E) | done].
    + destruct (Hother sid Hne) as [Heq _]. rewrite Heq in Hp. eauto.
Qed.

(** C10: a call of [analyze_code] for a student touches nothing but that
    student's counter, history, progress and archive and the feedback log.
    The profiles and archives of all other students are the same
    afterwards, the selected student is the same, the log is only
    extended, and the student's [common_issues] and [strengths] are what
    they were; in every session reached through the interface both are
    the empty mapping, for every profile. *)
Theorem commit_frame api_key reply timestamp code language student_id assignment_name s s' o :
  analyze_code api_key reply timestamp code language student_id assignment_name s = (s', o) ->
  (forall other, other <> student_id ->
     student_profiles s' !! other = student_profiles s !! other /\
     session_submissions s' !! other = session_submissions s !! other) /\
  (forall p', student_profiles s' !! student_id = Some p' ->
     common_issues p' = common_issues (profile_before student_id s) /\
     strengths p' = strengths (profile_before student_id s)) /\
  current_student s' = current_student s /\
  (exists l, feedback_history s' = feedback_history s ++ l) /\
  (reachable any_outcome s ->
   forall any_student p,
     student_profiles s' !! any_student = Some p -> common_issues p = ∅ /\ strengths p = ∅).
Proof.
  intros Hcall. pose proof (analyze_code_effect _ _ _ _ _ _ _ _ _ _ Hcall)
    as (Hother & Hprof & _ & Hsel & Hlog).
  split; [exact Hother |]. split; [| split; [exact Hsel | split; [exact Hlog |]]].
  - intros p' Hp'. destruct Hprof as [Heq|(q & Hq & Hc & Hs)].
    + rewrite Heq in Hp'. unfold profile_before. by rewrite Hp'.
    + assert (p' = q) as -> by congruence. done.
  - intros Hr any_student p Hp. eapply (mappings_stay_empty s'); [| exact Hp].
    eapply reach_analyze_code; [exact Hr | exact Hcall | exact I].
Qed.

Lemma reachable_call ok api_key reply timestamp code language student_id assignment_name s :
  reachable ok s ->
  ok (analyze_code api_key reply timestamp code language student_id assignment_name s).2 ->
  reachable ok (analyze_code api_key reply timestamp code language student_id assignment_name s).1.
Proof.
  intros Hr Hok. eapply reach_analyze_code; [exact Hr | apply surjective_pairing | exact Hok].
Qed.

Lemma commit_frame_witness :
  exists p,
    student_profiles (sample_call "85/100" "S1" (add_student "S2" initial_session)).1
      !! "S1"%string = Some p /\
    common_issues p = ∅ /\ strengths p = ∅ /\
    student_profiles (sample_call "85/100" "S1" (add_student "S2" initial_session)).1
      !! "S2"%string = Some new_profile.
Proof.
  destruct (sample_call "85/100" "S1" (add_student "S2" initial_session)) as [s' o] eqn:Hcall.
  unfold sample_call in Hcall.
  destruct (commit_frame _ _ _ _ _ _ _ _ _ _ Hcall) as (Hother & _ & _ & _ & Hempty).
  assert (Hs' : s' = (sample_call "85/100" "S1" (add_student "S2" initial_session)).1).
  { unfold sample_call. by rewrite Hcall. }
  assert (Hp : exists p, student_profiles s' !! "S1"%string = Some p).
  { rewrite Hs'. eexists. reflexivity. }
  destruct Hp as [p Hp]. exists p. simpl.
  destruct (Hempty (reach_add_student _ "S2" _ (reach_initial _)) "S1"%string p Hp) as [Hc Hs].
  assert (Hne : "S2"%string <> "S1"%string) by discriminate.
  destruct (Hother _ Hne) as [H2 _].
  split; [exact Hp | split; [exact Hc | split; [exact Hs |]]].
  rewrite H2. reflexivity.
Defined.

(** ** The length invariant *)

Lemma lengths_agree_profile_before s student_id :
  consistent s -> lengths_agree s student_id (profile_before student_id s).
Proof.
  intros [Hlen Hnone]. unfold profile_before.
  destruct (student_profiles s !! student_id) as [p|] eqn:E; simpl; [by apply Hlen |].
  unfold lengths_agree, archive. by rewrite (Hnone _ E).
Qed.

Lemma consistent_add_student new_student s :
  consistent s -> consistent (add_student new_student s).
Proof.
  intros Hc. unfold add_student. destruct (String.eqb new_student ""); [done |].
  destruct (student_profiles s !! new_student) as [q|] eqn:E.
  { by rewrite ensure_profile_registered by eauto. }
  pose proof (lengths_agree_profile_before s new_student Hc) as Hnew.
  destruct Hc as [Hlen Hnone]. split.
  - intros sid p Hp. destruct (decide (sid = new_student)) as [-> |Hne].
    + rewrite ensure_profile_lookup in Hp. injection Hp as <-.
      unfold lengths_agree, archive in *. by rewrite ensure_profile_archives.
    + rewrite ensure_profile_lookup_ne in Hp by done.
      unfold lengths_agree, archive in *. rewrite ensure_profile_archives. by apply Hlen.
  - intros sid Hp. rewrite ensure_profile_archives. apply Hnone.
    destruct (decide (sid = new_student)) as [-> |Hne]; [done |].
    by rewrite ensure_profile_lookup_ne in Hp.
Qed.

Lemma consistent_committed student_id h g x e s :
  consistent s -> consistent (committed student_id h g x e s).
Proof.
  intros Hc. pose proof (lengths_agree_profile_before s student_id Hc) as Hnew.
  destruct Hc as [Hlen Hnone]. split.
  - intros sid p Hp. destruct (decide (sid = student_id)) as [-> |Hne].
    + rewrite committed_lookup in Hp. injection Hp as <-.
      destruct Hnew as (H1 & H2 & H3). unfold lengths_agree.
      rewrite committed_archive. simpl. rewrite !length_app. simpl. lia.
    + rewrite committed_lookup_ne in Hp by done.
      unfold lengths_agree, archive. rewrite committed_archive_ne by done.
      by apply Hlen.
  - intros sid Hp. destruct (decide (sid = student_id)) as [-> |Hne].
    + by rewrite committed_lookup in Hp.
    + rewrite committed_lookup_ne in Hp by done.
      rewrite committed_archive_ne by done. by apply Hnone.
Qed.

Lemma consistent_reachable s : reachable no_raise_in_commit s -> consistent s.
Proof.
  induction 1 as [|n s Hr IH|k r ts c l id a s s' o Hr IH Hcall Hok].
  - split; intros sid; [intros p Hp | intros _].
    + exfalso. exact (lookup_empty_Some (M := gmap string) sid p Hp).
    + apply lookup_empty.
  - by apply consistent_add_student.
  - apply analyze_code_stages in Hcall.
    destruct Hcall as [(-> & _) | [(e & _ & ->) | [(e & est & iss & _ & -> & _)
                     | (fj & est & iss & g & _ & _ & _ & ->)]]];
      [done | done | done |].
    by apply consistent_committed.
Qed.

(** C4, counterexample: a reply without ["grade_estimate"] raises after
    the counter was incremented; the commit that follows succeeds, and
    after it the counter of "S1" is 2 while history, progress and archive
    have one entry each. *)
Lemma lengths_differ_after_failed_call :
  (exists fj,
      (sample_call "85/100" "S1" (call_without_grade "S1" initial_session).1).2
      = Feedback fj) /\
  (fun p => (submissions p, length (history p), length (progress p)))
    <$> student_profiles
          (sample_call "85/100" "S1" (call_without_grade "S1" initial_session).1).1
          !! "S1"%string
    = Some (2, 1%nat, 1%nat) /\
  length (archive "S1"
            (sample_call "85/100" "S1" (call_without_grade "S1" initial_session).1).1)
    = 1%nat.
Proof. split; [eexists; reflexivity |]. split; reflexivity. Qed.

(** C4, as amended: in every session reached by registrations and by
    calls of [analyze_code] none of which raised inside the commit, every
    profile has a history, a progress sequence and an archive of the same
    length, and that length is the submissions counter. *)
Theorem lengths_match_submissions (s : session) :
  reachable no_raise_in_commit s ->
  forall student_id p,
    student_profiles s !! student_id = Some p ->
    length (history p) = length (progress p) /\
    length (progress p) = length (archive student_id s) /\
    Z.of_nat (length (history p)) = submissions p.
Proof.
  intros Hr student_id p Hp. by apply (consistent_reachable s Hr).
Qed.

Lemma lengths_match_submissions_witness :
  exists p,
    student_profiles
      (sample_call "90/100" "S1"
         (sample_call "85/100" "S1" (add_student "S1" initial_session)).1).1
      !! "S1"%string = Some p /\
    submissions p = 2 /\
    length (history p) = length (progress p) /\
    Z.of_nat (length (history p)) = submissions p.
Proof.
  assert (Hr : reachable no_raise_in_commit
                 (sample_call "90/100" "S1"
                    (sample_call "85/100" "S1" (add_student "S1" initial_session)).1).1).
  { apply reachable_call; [apply reachable_call; [repeat constructor | exact I] | exact I]. }
  eexists. split; [reflexivity |]. split; [reflexivity |].
  destruct (lengths_match_submissions _ Hr "S1"%string _ eq_refl) as (H1 & _ & H3).
  split; [exact H1 | exact H3].
Defined.

(** ** Improvement *)

Lemma covers_profile_before s student_id :
  history_covers_progress s ->
  (length (progress (profile_before student_id s))
   <= length (history (profile_before student_id s)))%nat.
Proof.
  intros Hc. unfold profile_before.
  destruct (student_profiles s !! student_id) as [p|] eqn:E; [exact (Hc _ _ E) | done].
Qed.

Lemma covers_add_student new_student s :
  history_covers_progress s -> history_covers_progress (add_student new_student s).
Proof.
  intros Hc sid p. unfold add_student. destruct (String.eqb new_student ""); [apply Hc |].
  destruct (decide (sid = new_student)) as [-> |Hne].
  - rewrite ensure_profile_lookup. intros [= <-]. by apply covers_profile_before.
  - rewrite ensure_profile_lookup_ne by done. apply Hc.
Qed.

Lemma covers_counted student_id s :
  history_covers_progress s -> history_covers_progress (counted student_id s).
Proof.
  intros Hc sid p. destruct (decide (sid = student_id)) as [-> |Hne].
  - rewrite counted_lookup. intros [= <-]. by apply covers_profile_before.
  - rewrite counted_lookup_ne by done. apply Hc.
Qed.

Lemma covers_with_history student_id h s :
  history_covers_progress s -> history_covers_progress (with_history student_id h s).
Proof.
  intros Hc sid p. destruct (decide (sid = student_id)) as [-> |Hne].
  - rewrite with_history_lookup. intros [= <-].
    pose proof (covers_profile_before s student_id Hc).
    cbn [history progress append_history count_submission]. rewrite length_app. lia.
  - rewrite with_history_lookup_ne by done. apply Hc.
Qed.

Lemma covers_committed student_id h g x e s :
  history_covers_progress s -> history_covers_progress (committed student_id h g x e s).
Proof.
  intros Hc sid p. destruct (decide (sid = student_id)) as [-> |Hne].
  - rewrite committed_lookup. intros [= <-].
    pose proof (covers_profile_before s student_id Hc).
    cbn [history progress append_progress append_history count_submission].
    rewrite !length_app. cbn [length]. lia.
  - rewrite committed_lookup_ne by done. apply Hc.
Qed.

(** However the calls ended, a profile never has more progress entries
    than history entries: the history entry is appended first. *)
Lemma covers_reachable s : reachable any_outcome s -> history_covers_progress s.
Proof.
  induction 1 as [|n s Hr IH|k r ts c l id a s s' o Hr IH Hcall _].
  - intros sid p Hp. exfalso. exact (lookup_empty_Some (M := gmap string) sid p Hp).
  - by apply covers_add_student.
  - apply analyze_code_stages in Hcall.
    destruct Hcall as [(-> & _) | [(e & -> & _) | [(e & est & iss & -> & _)
                     | (fj & est & iss & g & _ & _ & _ & ->)]]].
    + done.
    + by apply covers_counted.
    + by apply covers_with_history.
    + by apply covers_committed.
Qed.

(** C8: on the dashboard, which is drawn for a profile with a history
    (lines 403-406), the improvement is the grade of the last progress
    entry minus the grade of the first one when there are at least two
    entries, and no value is computed when there are fewer than two.  The
    profiles of the program meet the condition: in every session reached
    by registrations and calls of [analyze_code], however they ended, a
    profile with progress has a history. *)
Theorem improvement_spec (p : profile) :
  (history p <> [] ->
   forall first_entry middle latest_entry,
     progress p = first_entry :: middle ++ [latest_entry] ->
     improvement p = Some (grade latest_entry - grade first_entry)) /\
  ((length (progress p) < 2)%nat -> improvement p = None) /\
  (forall s student_id,
     reachable any_outcome s -> student_profiles s !! student_id = Some p ->
     progress p <> [] -> history p <> []).
Proof.
  unfold improvement, has_history. split; [| split].
  - intros Hh f m l ->. destruct (history p) as [|h0 hr]; [done |].
    rewrite app_comm_cons, last_snoc. cbn [lookup list_lookup app length].
    rewrite length_app. cbn [length].
    destruct (1 <? S (length m + 1))%nat eqn:E; [done |].
    apply Nat.ltb_ge in E. lia.
  - intros Hlen. destruct (history p); [done |].
    destruct (1 <? length (progress p))%nat eqn:E; [| done].
    apply Nat.ltb_lt in E. lia.
  - intros s sid Hr Hp Hprog Hh.
    pose proof (covers_reachable s Hr sid p Hp) as Hle. rewrite Hh in Hle.
    destruct (progress p); [done | cbn in Hle; lia].
Qed.

Lemma improvement_spec_witness :
  exists p1 p2,
    student_profiles (sample_call "70/100" "S1" initial_session).1 !! "S1"%string = Some p1 /\
    student_profiles
      (sample_call "85/100" "S1" (sample_call "70/100" "S1" initial_session).1).1
      !! "S1"%string = Some p2 /\
    improvement p1 = None /\
    improvement p2 = Some 15.
Proof.
  eexists _, _. split; [reflexivity |]. split; [reflexivity |]. split.
  - apply improvement_spec. cbn. lia.
  - refine (proj1 (improvement_spec _) _
              (ProgressEntry "2024-05-01 10:00:00" "A1" 70) []
              (ProgressEntry "2024-05-01 10:00:00" "A1" 85) _); [discriminate | reflexivity].
Defined.

(** ** Failures and the state they leave *)





(** ** The grade expression *)

Section GradeText.
Import Text PyInt.

Lemma digit_value_nonneg c : is_digit c = true -> 0 <= digit_value c <= 9.
Proof. unfold is_digit, digit_value. lia. Qed.

Lemma digit_not_minus c : is_digit c = true -> is_minus c = false.
Proof. unfold is_digit, is_minus. lia. Qed.

Lemma digit_not_space c : is_digit c = true -> is_space c = false.
Proof. unfold is_digit, is_space. lia. Qed.

Lemma digit_not_plus c : is_digit c = true -> is_plus c = false.
Proof. unfold is_digit, is_plus. lia. Qed.

Lemma int_body_nonneg s : forall prev acc n v m,
  0 <= acc -> int_body prev acc n s = Some (v, m) -> 0 <= v.
Proof.
  induction s as [|c r IH]; intros prev acc n v m Hacc; simpl.
  - destruct prev; [intros [= <- <-]; done | done].
  - destruct (is_digit c) eqn:Hd.
    + apply IH. pose proof (digit_value_nonneg c Hd). lia.
    + destruct (is_underscore c); [| done]. destruct prev; [| done]. by apply IH.
Qed.

Lemma int_unsigned_nonneg s v : int_unsigned s = inr v -> 0 <= v.
Proof.
  unfold int_unsigned. destruct (int_body false 0 0 s) as [[w m]|] eqn:E; [| done].
  destruct (int_max_str_digits <? m)%nat; [done |]. intros [= <-].
  by eapply int_body_nonneg; [| exact E].
Qed.

Lemma contains_minus_lstrip s : contains_minus s = false -> contains_minus (lstrip s) = false.
Proof.
  induction s as [|c r IH]; simpl; [done |]. intros H.
  apply orb_false_iff in H as [Hc Hr].
  destruct (is_space c); [by apply IH |]. simpl. by rewrite Hc, Hr.
Qed.

Lemma contains_minus_rstrip s : contains_minus s = false -> contains_minus (rstrip s) = false.
Proof.
  induction s as [|c r IH]; simpl; [done |]. intros H.
  apply orb_false_iff in H as [Hc Hr].
  destruct (is_space c && all_space r); [done |]. simpl. by rewrite Hc, IH.
Qed.

Lemma contains_minus_before_slash s :
  contains_minus s = false -> contains_minus (before_slash s) = false.
Proof.
  induction s as [|c r IH]; simpl; [done |]. intros H.
  apply orb_false_iff in H as [Hc Hr].
  destruct (is_slash c); [done |]. simpl. by rewrite Hc, IH.
Qed.

Lemma take_digits_all_digits s : all_digits (take_digits s) = true.
Proof.
  induction s as [|c r IH]; simpl; [done |].
  destruct (is_digit c) eqn:E; [| done]. simpl. by rewrite E.
Qed.

Lemma search_digits_all_digits s m :
  search_digits s = Some m -> all_digits m = true /\ m <> EmptyString.
Proof.
  revert m. induction s as [|c r IH]; intros m; [done |]. cbn [search_digits].
  destruct (is_digit c) eqn:E; [| apply IH].
  intros [= <-]. split; [apply (take_digits_all_digits (String c r)) |].
  simpl. by rewrite E.
Qed.

Lemma all_digits_no_minus m : all_digits m = true -> contains_minus m = false.
Proof.
  induction m as [|c r IH]; simpl; [done |]. intros H.
  apply andb_true_iff in H as [Hc Hr]. by rewrite (digit_not_minus c Hc), IH.
Qed.

(** Without a minus sign in the text, [int] returns no negative number. *)
Lemma int_nonneg s v : contains_minus s = false -> int s = inr v -> 0 <= v.
Proof.
  intros Hs. unfold int, strip.
  pose proof (contains_minus_rstrip _ (contains_minus_lstrip _ Hs)) as Hm.
  destruct (rstrip (lstrip s)) as [|c r]; [done |].
  simpl in Hm. apply orb_false_iff in Hm as [-> _].
  destruct (is_plus c); apply int_unsigned_nonneg.
Qed.

(** A run of digits is a literal, and its value is read digit by digit. *)
Lemma int_body_digits m : forall prev acc n,
  all_digits m = true -> (m <> EmptyString \/ prev = true) ->
  int_body prev acc n m = Some (digits_value acc m, (n + String.length m)%nat).
Proof.
  induction m as [|c r IH]; intros prev acc n Hd Hne; simpl.
  - destruct Hne as [? | ->]; [done |]. by rewrite Nat.add_0_r.
  - simpl in Hd. apply andb_true_iff in Hd as [Hc Hr]. rewrite Hc.
    rewrite IH by auto. by rewrite Nat.add_succ_r.
Qed.

Lemma all_digits_no_space m : all_digits m = true -> all_space m = true -> m = EmptyString.
Proof.
  destruct m as [|c r]; [done |]. simpl. intros H1 H2.
  apply andb_true_iff in H1 as [Hc _]. apply andb_true_iff in H2 as [Hs _].
  rewrite (digit_not_space c Hc) in Hs. done.
Qed.

Lemma rstrip_digits m : all_digits m = true -> rstrip m = m.
Proof.
  induction m as [|c r IH]; [done |]. intros Hd. cbn [rstrip].
  destruct (all_space (String c r)) eqn:E.
  - by apply all_digits_no_space in E.
  - simpl in Hd. apply andb_true_iff in Hd as [_ Hr]. by rewrite IH.
Qed.

Lemma strip_digits m : all_digits m = true -> strip m = m.
Proof.
  intros Hd. unfold strip.
  assert (lstrip m = m) as ->; [| by apply rstrip_digits].
  destruct m as [|c r]; [done |]. simpl in *.
  apply andb_true_iff in Hd as [Hc _]. by rewrite (digit_not_space c Hc).
Qed.

Lemma int_digits m :
  all_digits m = true -> m <> EmptyString ->
  (String.length m <= int_max_str_digits)%nat ->
  int m = inr (digits_value 0 m).
Proof.
  intros Hd Hne Hlen. unfold int. rewrite (strip_digits m Hd).
  destruct m as [|c r] eqn:Em; [done |]. rewrite <- Em in *.
  assert (Hc : is_digit c = true).
  { rewrite Em in Hd. simpl in Hd. by apply andb_true_iff in Hd as [? _]. }
  replace (is_minus c) with false by (symmetry; by apply digit_not_minus).
  replace (is_plus c) with false by (symmetry; by apply digit_not_plus).
  unfold int_unsigned. rewrite int_body_digits by auto. simpl.
  destruct (int_max_str_digits <? String.length m)%nat eqn:E; [| done].
  apply Nat.ltb_lt in E. lia.
Qed.

End GradeText.

(** The policy of the grade expression, branch by branch. *)

Lemma grade_with_slash g :
  Text.contains_slash g = true -> grade_of_text g = PyInt.int (Text.before_slash g).
Proof. unfold grade_of_text. by intros ->. Qed.

Lemma grade_digits_before_slash g :
  Text.contains_slash g = true ->
  Text.all_digits (Text.before_slash g) = true ->
  Text.before_slash g <> EmptyString ->
  (String.length (Text.before_slash g) <= PyInt.int_max_str_digits)%nat ->
  grade_of_text g = inr (Text.digits_value 0 (Text.before_slash g)).
Proof. intros Hs Hd Hne Hlen. rewrite grade_with_slash by done. by apply int_digits. Qed.

Lemma grade_first_digits g m :
  Text.contains_slash g = false ->
  Text.search_digits g = Some m ->
  (String.length m <= PyInt.int_max_str_digits)%nat ->
  grade_of_text g = inr (Text.digits_value 0 m).
Proof.
  intros Hs Hm Hlen. unfold grade_of_text. rewrite Hs, Hm.
  destruct (search_digits_all_digits g m Hm). by apply int_digits.
Qed.

Lemma grade_default g :
  Text.contains_slash g = false -> Text.search_digits g = None -> grade_of_text g = inr 0.
Proof. intros Hs Hm. unfold grade_of_text. by rewrite Hs, Hm. Qed.

Lemma grade_nonneg g v :
  Text.contains_minus g = false -> grade_of_text g = inr v -> 0 <= v.
Proof.
  intros Hm. unfold grade_of_text. destruct (Text.contains_slash g).
  - apply int_nonneg. by apply contains_minus_before_slash.
  - destruct (Text.search_digits g) as [m|] eqn:E; [| by intros [= <-]].
    apply int_nonneg. apply all_digits_no_minus.
    by destruct (search_digits_all_digits g m E).
Qed.

(** C1: the grade expression on the examples of the policy.  The three
    examples with a parseable grade come out as stated.  With a slash in
    the text the whole text before the first slash is handed to [int]: for
    ["N/A"] that raises [ValueError] where the policy gives 0, and for
    ["Grade: 85/100"] it raises where the policy gives the integer before
    the slash. *)
Theorem grade_policy_examples :
  grade_of_text "85/100" = inr 85 /\
  grade_of_text "100/100" = inr 100 /\
  grade_of_text "Grade: 72 out of 100" = inr 72 /\
  grade_of_text "N/A" = inl ValueError /\
  grade_of_text "Grade: 85/100" = inl ValueError.
Proof. repeat split; reflexivity. Qed.

(** C2: deriving the numeric grade is not total.  For the grade text
    ["N/A"] the derivation raises [ValueError]; the exception ends the
    call of [analyze_code], which returns nothing, after the counter and
    the history of the student were updated and before the progress entry
    was appended. *)
Theorem not_available_aborts_submission :
  grade_of (JStr "N/A") = inl ValueError /\
  (sample_call "N/A" "S1" (add_student "S1" initial_session)).2
    = CallError (Some ValueError) /\
  returned (sample_call "N/A" "S1" (add_student "S1" initial_session)).2 = None /\
  (fun p => (submissions p, length (history p), length (progress p)))
    <$> student_profiles (sample_call "N/A" "S1" (add_student "S1" initial_session)).1
          !! "S1"%string
    = Some (1, 1%nat, 0%nat).
Proof. repeat split; reflexivity. Qed.

(** ** The range of the stored grade *)

(** C5, counterexample: the grade text ["150/100"] is committed, and the
    grade stored in the progress sequence is 150. *)
Lemma grade_150_stored :
  (exists fj, (sample_call "150/100" "S1" initial_session).2 = Feedback fj) /\
  (map grade ∘ progress)
    <$> student_profiles (sample_call "150/100" "S1" initial_session).1 !! "S1"%string
    = Some [150] /\
  ~ (0 <= 150 <= 100).
Proof. split; [eexists; reflexivity |]. split; [reflexivity | lia]. Qed.

Lemma grade_of_text_only g v : grade_of g = inr v -> exists text, g = JStr text.
Proof.
  destruct g as [| | |text|l|d]; simpl; try done; [eauto | |].
  - by destruct (existsb is_slash_text l).
  - by destruct (existsb _ d).
Qed.

(** C5, as amended: the grade that a successful call stores is the integer
    that the grade expression reads from the textual estimate of the
    returned document, appended to the student's progress as it is, with
    no clamping to [0,100].  It is not negative unless the text contains a
    minus sign. *)
Theorem stored_grade_is_extracted api_key reply timestamp code language student_id
    assignment_name s s' fj :
  analyze_code api_key reply timestamp code language student_id assignment_name s
    = (s', Feedback fj) ->
  exists text g p',
    getitem fj "grade_estimate" = inr (JStr text) /\
    grade_of_text text = inr g /\
    student_profiles s' !! student_id = Some p' /\
    progress p' = progress (profile_before student_id s)
                  ++ [ProgressEntry timestamp assignment_name g] /\
    (Text.contains_minus text = false -> 0 <= g).
Proof.
  intros Hcall. apply analyze_code_stages in Hcall.
  destruct Hcall as [(_ & [H|[[c H]|[H|[H|H]]]]) | [(e & _ & H) | [(e & est & iss & _ & H & _)
                   | (fj' & est & iss & g & H & Hget & Hg & ->)]]]; try discriminate H.
  injection H as <-.
  destruct (grade_of_text_only est g Hg) as [text ->].
  exists text, g. eexists. split; [exact Hget |]. split; [exact Hg |].
  split; [apply committed_lookup |]. split; [reflexivity |].
  intros Hm. by apply (grade_nonneg text).
Qed.

Lemma stored_grade_is_extracted_witness :
  exists p',
    student_profiles (sample_call "85/100" "S1" initial_session).1 !! "S1"%string = Some p' /\
    map grade (progress p') = [85].
Proof.
  destruct (sample_call "85/100" "S1" initial_session) as [s' o] eqn:Hcall.
  pose proof (f_equal snd Hcall) as Ho. vm_compute in Ho. subst o.
  unfold sample_call in Hcall.
  destruct (stored_grade_is_extracted _ _ _ _ _ _ _ _ _ _ Hcall)
    as (text & g & p' & Hget & Hg & Hp & Hprog & _).
  exists p'. split; [exact Hp |]. simpl. rewrite Hprog.
  vm_compute in Hget. injection Hget as <-.
  vm_compute in Hg. injection Hg as <-. reflexivity.
Defined.

(** ** Submitting for a student that was not registered *)

(** C6, counterexample: in the initial session no student is registered;
    a submission for "S1" succeeds and leaves a profile for "S1". *)
Lemma unregistered_submission_succeeds :
  student_profiles initial_session !! "S1"%string = None /\
  (exists fj, (sample_call "85/100" "S1" initial_session).2 = Feedback fj) /\
  submissions <$> student_profiles (sample_call "85/100" "S1" initial_session).1 !! "S1"%string
    = Some 1.
Proof. split; [reflexivity |]. split; [eexists; reflexivity | reflexivity]. Qed.

Lemma commit_after_ensure timestamp code language student_id assignment_name d s :
  commit timestamp code language student_id assignment_name (JDict d)
         (ensure_profile student_id s)
  = commit timestamp code language student_id assignment_name (JDict d) s.
Proof.
  unfold commit. unfold bind at 1 2 3 4. unfold bind at 17 18 19 20.
  unfold lift at 1 2 3. unfold lift at 10 11 12. cbn [setitem].
  unfold modify at 1. unfold modify at 6.
  by rewrite ensure_profile_idempotent.
Qed.

(** C6, as amended: a submission for a student that was never registered
    does not fail for that reason.  Once the reply is a decoded JSON
    object, [analyze_code] creates the empty profile of the student itself
    and goes on as for a registered student: the call ends in the same way
    and in the same session as when the student is registered first, the
    student has a profile afterwards, and when the call returns the
    feedback the counter of the student is one more than before (1 for a
    student that had no profile). *)
Theorem submission_registers api_key timestamp code language student_id assignment_name d s :
  api_key <> ""%string ->
  student_id <> ""%string ->
  analyze_code api_key (HttpReply 200 (Some (JDict d))) timestamp code language
    student_id assignment_name s
  = analyze_code api_key (HttpReply 200 (Some (JDict d))) timestamp code language
      student_id assignment_name (add_student student_id s) /\
  is_Some (student_profiles
             (analyze_code api_key (HttpReply 200 (Some (JDict d))) timestamp code language
                student_id assignment_name s).1 !! student_id) /\
  (forall fj,
      (analyze_code api_key (HttpReply 200 (Some (JDict d))) timestamp code language
         student_id assignment_name s).2 = Feedback fj ->
      submissions <$> student_profiles
                        (analyze_code api_key (HttpReply 200 (Some (JDict d))) timestamp
                           code language student_id assignment_name s).1 !! student_id
      = Some (submissions (profile_before student_id s) + 1)).
Proof.
  intros Hkey Hid. unfold analyze_code, add_student.
  destruct (String.eqb_spec api_key ""); [done |].
  destruct (String.eqb_spec student_id ""); [done |].
  change (200 =? 200) with true. cbv iota.
  rewrite commit_after_ensure.
  destruct (commit timestamp code language student_id assignment_name (JDict d) s)
    as [s1 r] eqn:Hc.
  split; [done |].
  apply commit_stages in Hc.
  destruct Hc as [(_ & _ & Hno) | [(e & -> & ->) | [(e & est & iss & -> & -> & _)
                | (fj & est & iss & g & -> & _ & _ & ->)]]].
  - by destruct (Hno d).
  - cbn [fst snd]. rewrite counted_lookup. split; [eauto | done].
  - cbn [fst snd]. rewrite with_history_lookup. split; [eauto | done].
  - cbn [fst snd]. rewrite committed_lookup. split; [eauto |]. by intros fj' _.
Qed.

Lemma submission_registers_witness :
  sample_call "85/100" "S1" initial_session
  = sample_call "85/100" "S1" (add_student "S1" initial_session) /\
  submissions <$> student_profiles (sample_call "85/100" "S1" initial_session).1 !! "S1"%string
  = Some 1.
Proof.
  unfold sample_call, sample_feedback.
  destruct (submission_registers "gsk" "2024-05-01 10:00:00" "print(1)" "python" "S1" "A1"
              [("overall_feedback"%string, JStr "Good work");
               ("grade_estimate"%string, JStr "85/100")] initial_session)
    as (Hsame & _ & Hcount); [discriminate | discriminate |].
  split; [exact Hsame |].
  specialize (Hcount _ eq_refl). exact Hcount.
Defined.

(** ** The issue chart *)

Section Counting.












End Counting.

Lemma count_issues_raises issues : forall counts,
  Exists (fun x => key_of x = None) issues -> count_issues issues counts = inl TypeError.
Proof.
  induction issues as [|issue r IH]; intros counts H; [by apply Exists_nil in H |].
  cbn [count_issues]. destruct (key_of issue) as [k|] eqn:Hk; [| done].
  apply IH. apply Exists_cons in H as [H|H]; [congruence | done].
Qed.

Lemma count_issues_total issues : forall counts,
  Forall (fun x => is_Some (key_of x)) issues ->
  exists counts', count_issues issues counts = inr counts'.
Proof.
  induction issues as [|issue r IH]; intros counts Hall; simpl; [eauto |].
  apply Forall_cons in Hall as [[k ->] Hr]. by apply IH.
Qed.



(** ** Sorting by count *)

Section SortByCount.
Import Spec.
Context {A : Type}.
Implicit Types (x : A * Z) (l : list (A * Z)).










End SortByCount.





(** ** The counting loop on texts *)

Section FirstSeen.
Import Spec.













End FirstSeen.




(** * Further properties of the code *)

(** ** Cleaning the reply *)

Section ReplyCleaning.
Import Reply.

Lemma remove_from_pending pat s : forall k,
  remove_from pat k s = remove_from pat 0 (skip k s).
Proof.
  induction s as [|c r IH]; intros k; [by destruct k |].
  destruct k as [|k]; [done |]. simpl. apply IH.
Qed.

Lemma remove_all_nil pat : remove_all pat EmptyString = EmptyString.
Proof. by destruct pat. Qed.

(** The scan, one step at a time. *)
Lemma remove_all_cons pat c r :
  pat <> EmptyString ->
  remove_all pat (String c r)
  = if starts_with pat (String c r)
    then remove_all pat (skip (String.length pat) (String c r))
    else String c (remove_all pat r).
Proof.
  destruct pat as [|a p]; [done |]. intros _. unfold remove_all.
  cbn [remove_from]. destruct (starts_with (String a p) (String c r)); [| done].
  change (String.length (String a p)) with (S (String.length p)).
  cbn [skip]. rewrite Nat.sub_succ, Nat.sub_0_r. apply remove_from_pending.
Qed.

Lemma length_String c r : String.length (String c r) = S (String.length r).
Proof. reflexivity. Qed.

Lemma length_skip k : forall s, (String.length (skip k s) <= String.length s)%nat.
Proof.
  induction k as [|k IH]; intros s; [done |].
  destruct s as [|c r]; [done |]. cbn [skip]. rewrite length_String.
  specialize (IH r). lia.
Qed.

Lemma skip_fence_shorter c r n :
  (String.length (String c r) <= S n)%nat ->
  (String.length (skip (String.length fence) (String c r)) <= n)%nat.
Proof.
  rewrite length_String. intros Hlen.
  change (skip (String.length fence) (String c r)) with (skip 2 r).
  pose proof (length_skip 2 r). lia.
Qed.

Lemma starts_with_fence c r :
  starts_with fence (String c r) = is_backtick c && starts_with "``" r.
Proof.
  unfold fence. cbn [starts_with]. f_equal.
  unfold is_backtick, Text.code_point.
  destruct (Ascii.eqb_spec "`"%char c) as [<- |Hne]; [done |].
  symmetry. apply Z.eqb_neq. intros Heq. apply Hne.
  apply (f_equal Z.to_N) in Heq. rewrite N2Z.id in Heq. simpl in Heq.
  apply (f_equal ascii_of_N) in Heq. by rewrite ascii_N_embedding in Heq.
Qed.

Lemma starts_with_two c r :
  starts_with "``" (String c r) = is_backtick c && starts_with "`" r.
Proof.
  pose proof (starts_with_fence c (String "`" r)) as H.
  unfold fence in H. cbn [starts_with] in *.
  destruct (Ascii.eqb "`" c); simpl in *; [| done].
  destruct (is_backtick c); simpl in *; [done | done].
Qed.

Lemma starts_with_one c r : starts_with "`" (String c r) = is_backtick c.
Proof.
  pose proof (starts_with_two c (String "`" r)) as H.
  cbn [starts_with] in *. rewrite !andb_true_r in *.
  destruct (Ascii.eqb "`" c); simpl in *; by destruct (is_backtick c).
Qed.

(** After the fences are removed no text begins with one. *)
Lemma no_fence_at_head n : forall s,
  (String.length s <= n)%nat -> starts_with fence (remove_all fence s) = false.
Proof.
  induction n as [|n IH]; intros s Hlen.
  - destruct s; [done | rewrite length_String in Hlen; lia].
  - destruct s as [|c r]; [done |].
    rewrite remove_all_cons by done.
    destruct (starts_with fence (String c r)) eqn:E.
    + apply IH. by apply skip_fence_shorter.
    + rewrite starts_with_fence in E. rewrite starts_with_fence.
      destruct (is_backtick c); [| reflexivity]. cbn [andb] in *.
      destruct r as [|c2 r2]; [reflexivity |].
      rewrite starts_with_two in E.
      assert (Hf : starts_with fence (String c2 r2) = false).
      { rewrite starts_with_fence. destruct (is_backtick c2); [| reflexivity].
        cbn [andb] in *. destruct r2 as [|c3 r3]; [reflexivity |].
        rewrite starts_with_one in E. rewrite starts_with_two, E. reflexivity. }
      rewrite remove_all_cons by done. rewrite Hf, starts_with_two.
      destruct (is_backtick c2); [| reflexivity]. cbn [andb] in *.
      destruct r2 as [|c3 r3]; [reflexivity |].
      rewrite starts_with_one in E.
      rewrite remove_all_cons by done.
      rewrite starts_with_fence, E. cbn [andb]. by rewrite starts_with_one.
Qed.

Lemma no_fence_left n : forall s,
  (String.length s <= n)%nat -> occurs fence (remove_all fence s) = false.
Proof.
  induction n as [|n IH]; intros s Hlen.
  - destruct s; [done | rewrite length_String in Hlen; lia].
  - destruct s as [|c r]; [done |].
    pose proof (no_fence_at_head (S n) (String c r) Hlen) as Hhead.
    rewrite remove_all_cons in * by done.
    destruct (starts_with fence (String c r)).
    + apply IH. by apply skip_fence_shorter.
    + cbn [occurs]. rewrite Hhead. simpl. apply IH.
      rewrite length_String in Hlen. lia.
Qed.

Lemma append_String c a b : String c a +:+ b = String c (a +:+ b).
Proof. reflexivity. Qed.

Lemma append_empty_l a : EmptyString +:+ a = a.
Proof. reflexivity. Qed.

Lemma append_empty_r a : a +:+ EmptyString = a.
Proof. induction a as [|c r IH]; [done |]. by rewrite append_String, IH. Qed.

Lemma append_assoc a b c : (a +:+ b) +:+ c = a +:+ (b +:+ c).
Proof. induction a as [|x r IH]; [done |]. by rewrite !append_String, IH. Qed.

Lemma starts_with_empty pat : starts_with pat EmptyString = true -> pat = EmptyString.
Proof. by destruct pat. Qed.

Lemma occurs_lstrip pat s : occurs pat (lstrip s) = true -> occurs pat s = true.
Proof.
  induction s as [|c r IH]; [done |]. cbn [lstrip].
  destruct (is_whitespace c); [| done].
  intros H. cbn [occurs]. rewrite (IH H). apply orb_true_r.
Qed.

Lemma starts_with_rstrip s : forall pat,
  starts_with pat (rstrip s) = true -> starts_with pat s = true.
Proof.
  induction s as [|c r IH]; intros pat; [done |]. cbn [rstrip].
  destruct (all_whitespace (String c r)).
  - intros H. by rewrite (starts_with_empty pat H).
  - destruct pat as [|a p]; [done |]. cbn [starts_with].
    intros H. apply andb_true_iff in H as [-> H]. by rewrite (IH p H).
Qed.

Lemma occurs_rstrip pat s : occurs pat (rstrip s) = true -> occurs pat s = true.
Proof.
  induction s as [|c r IH]; [done |].
  pose proof (starts_with_rstrip (String c r) pat) as Hhead.
  cbn [rstrip] in *. destruct (all_whitespace (String c r)).
  - intros H. cbn [occurs] in H. rewrite orb_false_r in H.
    cbn [occurs]. by rewrite (Hhead H).
  - cbn [occurs]. intros H. apply orb_true_iff in H as [H|H].
    + by rewrite (Hhead H).
    + rewrite (IH H). apply orb_true_r.
Qed.

Lemma cleaned_no_fence feedback : occurs fence (clean_response feedback) = false.
Proof.
  unfold clean_response, strip.
  destruct (occurs fence (rstrip (lstrip (remove_all fence (remove_all json_fence feedback)))))
    eqn:E; [| done].
  apply occurs_rstrip, occurs_lstrip in E.
  by rewrite (no_fence_left _ _ (le_n _)) in E.
Qed.

Lemma remove_all_absent pat s : occurs pat s = false -> remove_all pat s = s.
Proof.
  destruct pat as [|a p]; [done |].
  induction s as [|c r IH]; [done |]. cbn [occurs].
  intros H. apply orb_false_iff in H as [Hhead Hrest].
  rewrite remove_all_cons by done. by rewrite Hhead, IH.
Qed.

Lemma starts_with_append p q : forall s,
  starts_with (p +:+ q) s = true -> starts_with p s = true.
Proof.
  induction p as [|a p IH]; intros s; [done |]. rewrite append_String.
  destruct s as [|c r]; [done |]. cbn [starts_with].
  intros H. apply andb_true_iff in H as [-> H]. by rewrite (IH r H).
Qed.

Lemma occurs_append p q s : occurs (p +:+ q) s = true -> occurs p s = true.
Proof.
  induction s as [|c r IH]; cbn [occurs]; intros H.
  - rewrite orb_false_r in *. by apply (starts_with_append p q).
  - apply orb_true_iff in H as [H|H].
    + by rewrite (starts_with_append p q _ H).
    + rewrite (IH H). apply orb_true_r.
Qed.

Lemma lstrip_head s :
  lstrip s = EmptyString \/ exists c r, lstrip s = String c r /\ is_whitespace c = false.
Proof.
  induction s as [|c r IH]; [by left |]. cbn [lstrip].
  destruct (is_whitespace c) eqn:E; [exact IH |]. right. eauto.
Qed.

Lemma all_whitespace_rstrip s : all_whitespace s = false -> all_whitespace (rstrip s) = false.
Proof.
  induction s as [|c r IH]; [done |]. intros H. cbn [rstrip]. rewrite H.
  cbn [all_whitespace] in *. destruct (is_whitespace c); [| done].
  cbn [andb] in *. by apply IH.
Qed.

Lemma rstrip_idempotent s : rstrip (rstrip s) = rstrip s.
Proof.
  induction s as [|c r IH]; [done |]. cbn [rstrip].
  destruct (all_whitespace (String c r)) eqn:E; [done |].
  pose proof (all_whitespace_rstrip _ E) as E'. cbn [rstrip] in E'. rewrite E in E'.
  cbn [rstrip]. by rewrite E', IH.
Qed.

Lemma strip_idempotent s : strip (strip s) = strip s.
Proof.
  unfold strip. destruct (lstrip_head s) as [-> |(c & r & -> & Hc)]; [done |].
  cbn [rstrip]. destruct (all_whitespace (String c r)) eqn:E; [done |].
  cbn [lstrip]. rewrite Hc.
  change (String c (rstrip r)) with (if false then EmptyString else String c (rstrip r)).
  rewrite <- E. change (rstrip (rstrip (String c r)) = rstrip (String c r)).
  apply rstrip_idempotent.
Qed.

Lemma cleaned_no_json_fence feedback : occurs json_fence (clean_response feedback) = false.
Proof.
  destruct (occurs json_fence (clean_response feedback)) eqn:E; [| done].
  change json_fence with (fence +:+ "json") in E. apply occurs_append in E.
  by rewrite cleaned_no_fence in E.
Qed.

(** X1: whatever the provider sent, the text that is handed to the
    decoder holds no fence mark, neither the plain one nor the one that
    names JSON, and has no whitespace at either end. *)
Theorem clean_response_no_fence (feedback : string) :
  occurs fence (clean_response feedback) = false /\
  occurs json_fence (clean_response feedback) = false /\
  strip (clean_response feedback) = clean_response feedback.
Proof.
  split; [apply cleaned_no_fence |]. split; [apply cleaned_no_json_fence |].
  unfold clean_response. apply strip_idempotent.
Qed.

(** X2: cleaning is idempotent: a text that was cleaned is left as it is
    by a second cleaning. *)
Theorem clean_response_idempotent (feedback : string) :
  clean_response (clean_response feedback) = clean_response feedback.
Proof.
  unfold clean_response at 1.
  rewrite (remove_all_absent json_fence _ (cleaned_no_json_fence feedback)).
  rewrite (remove_all_absent fence _ (cleaned_no_fence feedback)).
  unfold clean_response. apply strip_idempotent.
Qed.

Lemma starts_with_backtick p c r :
  starts_with (String "`" p) (String c r) = is_backtick c && starts_with p r.
Proof.
  pose proof (starts_with_one c r) as H. cbn [starts_with] in *.
  rewrite andb_true_r in H. by rewrite H.
Qed.

Lemma occurs_backtick_cons c r :
  occurs "`" (String c r) = is_backtick c || occurs "`" r.
Proof. cbn [occurs]. by rewrite starts_with_one. Qed.

Lemma occurs_backtick_append a b :
  occurs "`" (a +:+ b) = occurs "`" a || occurs "`" b.
Proof.
  induction a as [|c r IH].
  - rewrite append_empty_l. by destruct (occurs "`" b).
  - rewrite append_String, !occurs_backtick_cons, IH. apply orb_assoc.
Qed.

Lemma whitespace_not_backtick c : is_whitespace c = true -> is_backtick c = false.
Proof. unfold is_whitespace, is_backtick. lia. Qed.

Lemma all_whitespace_no_backtick ws : all_whitespace ws = true -> occurs "`" ws = false.
Proof.
  induction ws as [|c r IH]; [done |]. cbn [all_whitespace].
  intros H. apply andb_true_iff in H as [Hc Hr].
  by rewrite occurs_backtick_cons, (whitespace_not_backtick c Hc), IH.
Qed.

(** A part without backticks is copied by the scan for a fence mark. *)
Lemma remove_all_clear p s t :
  occurs "`" s = false ->
  remove_all (String "`" p) (s +:+ t) = s +:+ remove_all (String "`" p) t.
Proof.
  induction s as [|c r IH]; [done |]. rewrite occurs_backtick_cons.
  intros H. apply orb_false_iff in H as [Hc Hr].
  rewrite !append_String, remove_all_cons by done.
  by rewrite starts_with_backtick, Hc, IH.
Qed.

Lemma starts_with_self p t : starts_with p (p +:+ t) = true.
Proof.
  induction p as [|a p IH]; [done |]. rewrite append_String. cbn [starts_with].
  by rewrite Ascii.eqb_refl, IH.
Qed.

Lemma skip_self p t : skip (String.length p) (p +:+ t) = t.
Proof. induction p as [|a p IH]; [done |]. by rewrite append_String, length_String. Qed.

Lemma remove_all_match c p t :
  remove_all (String c p) (String c p +:+ t) = remove_all (String c p) t.
Proof.
  rewrite <- (skip_self (String c p) t) at 2.
  rewrite append_String, remove_all_cons by done.
  by rewrite <- append_String, starts_with_self.
Qed.

Lemma lstrip_whitespace ws s : all_whitespace ws = true -> lstrip (ws +:+ s) = lstrip s.
Proof.
  induction ws as [|c r IH]; [done |]. cbn [all_whitespace].
  intros H. apply andb_true_iff in H as [Hc Hr].
  rewrite append_String. cbn [lstrip]. by rewrite Hc, IH.
Qed.

Lemma all_whitespace_append a b :
  all_whitespace (a +:+ b) = all_whitespace a && all_whitespace b.
Proof.
  induction a as [|c r IH]; [done |]. rewrite append_String. cbn [all_whitespace].
  by rewrite IH, andb_assoc.
Qed.

Lemma rstrip_whitespace ws s : all_whitespace ws = true -> rstrip (s +:+ ws) = rstrip s.
Proof.
  intros Hws. induction s as [|c r IH].
  - rewrite append_empty_l. destruct ws as [|c r]; [done |]. cbn [rstrip]. by rewrite Hws.
  - rewrite append_String. cbn [rstrip].
    rewrite <- append_String, all_whitespace_append, Hws, andb_true_r.
    by rewrite IH.
Qed.

Lemma lstrip_all_whitespace s : all_whitespace s = true -> lstrip s = EmptyString.
Proof.
  induction s as [|c r IH]; [done |]. cbn [all_whitespace lstrip].
  intros H. apply andb_true_iff in H as [-> Hr]. by apply IH.
Qed.

Lemma lstrip_append s t :
  all_whitespace s = false -> lstrip (s +:+ t) = lstrip s +:+ t.
Proof.
  induction s as [|c r IH]; [done |]. cbn [all_whitespace]. rewrite append_String.
  cbn [lstrip]. destruct (is_whitespace c); [| done]. cbn [andb]. apply IH.
Qed.

(** Whitespace around a text does not change what stripping gives. *)
Lemma strip_padded ws s ws' :
  all_whitespace ws = true -> all_whitespace ws' = true ->
  strip (ws +:+ s +:+ ws') = strip s.
Proof.
  intros Hws Hws'. unfold strip. rewrite lstrip_whitespace by done.
  destruct (all_whitespace s) eqn:E.
  - rewrite (lstrip_all_whitespace s E).
    rewrite lstrip_all_whitespace; [done |]. by rewrite all_whitespace_append, E.
  - rewrite lstrip_append by done. by apply rstrip_whitespace.
Qed.

(** X3: a reply that wraps its payload in a JSON fence, with any
    whitespace between the fence marks and the payload, is cleaned to the
    stripped payload, provided the payload itself holds no backtick. *)
Theorem clean_response_fenced (ws payload ws' : string) :
  all_whitespace ws = true ->
  all_whitespace ws' = true ->
  occurs "`" payload = false ->
  clean_response (json_fence +:+ ws +:+ payload +:+ ws' +:+ fence) = strip payload.
Proof.
  intros Hws Hws' Hp. unfold clean_response.
  assert (Hclear : occurs "`" (ws +:+ payload +:+ ws') = false).
  { rewrite !occurs_backtick_append, Hp.
    by rewrite !all_whitespace_no_backtick. }
  change json_fence with (String "`" "``json") at 1 2.
  rewrite remove_all_match.
  replace (ws +:+ payload +:+ ws' +:+ fence) with ((ws +:+ payload +:+ ws') +:+ fence)
    by (by rewrite !append_assoc).
  rewrite remove_all_clear by done.
  change (remove_all (String "`" "``json") fence) with fence.
  change fence with (String "`" "``") at 1.
  rewrite remove_all_clear by done.
  change (remove_all (String "`" "``") fence) with EmptyString.
  rewrite append_empty_r. by apply strip_padded.
Qed.

Lemma clean_response_fenced_witness :
  clean_response (json_fence +:+ " " +:+ "{}" +:+ " " +:+ fence) = "{}"%string.
Proof.
  rewrite (clean_response_fenced " " "{}" " "); reflexivity.
Defined.

(** X4: a reply without any backtick is only stripped: nothing else of it
    is changed before it is decoded. *)
Theorem clean_response_plain (feedback : string) :
  occurs "`" feedback = false -> clean_response feedback = strip feedback.
Proof.
  intros H. unfold clean_response.
  rewrite <- (append_empty_r feedback) at 1.
  change json_fence with (String "`" "``json").
  rewrite remove_all_clear by done. rewrite remove_all_nil, append_empty_r.
  rewrite <- (append_empty_r feedback) at 1.
  change fence with (String "`" "``").
  rewrite remove_all_clear by done. by rewrite remove_all_nil, append_empty_r.
Qed.

Lemma clean_response_plain_witness : clean_response " {} " = "{}"%string.
Proof. rewrite clean_response_plain; reflexivity. Defined.


End ReplyCleaning.

(** ** The grade expression, in general *)

Section GradeInGeneral.
Import Text PyInt.

Lemma length_take_digits s : (String.length (take_digits s) <= String.length s)%nat.
Proof.
  induction s as [|c r IH]; [done |]. cbn [take_digits].
  destruct (is_digit c); [| cbn; lia]. rewrite !length_String. lia.
Qed.

Lemma length_search_digits s m :
  search_digits s = Some m -> (String.length m <= String.length s)%nat.
Proof.
  revert m. induction s as [|c r IH]; intros m; [done |]. cbn [search_digits].
  destruct (is_digit c).
  - intros [= <-]. apply (length_take_digits (String c r)).
  - intros H. specialize (IH m H). rewrite length_String. lia.
Qed.

(** X5: for a text without a slash the grade expression does not raise
    (as long as the text is no longer than the interpreter's limit on
    integer literals): the grade is the value of the leftmost longest run of
    digits, and 0 when the text has no digit.  It is never negative. *)
Theorem grade_without_slash (g : string) :
  contains_slash g = false ->
  (String.length g <= int_max_str_digits)%nat ->
  grade_of_text g
  = inr (match search_digits g with
         | Some m => digits_value 0 m
         | None => 0
         end) /\
  forall v, grade_of_text g = inr v -> 0 <= v.
Proof.
  intros Hs Hlen. split.
  - destruct (search_digits g) as [m|] eqn:E.
    + apply grade_first_digits; [done | done |].
      pose proof (length_search_digits g m E). lia.
    + by apply grade_default.
  - intros v. unfold grade_of_text. rewrite Hs.
    destruct (search_digits g) as [m|] eqn:E; [| by intros [= <-]].
    apply int_nonneg, all_digits_no_minus.
    by destruct (search_digits_all_digits g m E).
Qed.

Lemma grade_without_slash_witness :
  grade_of_text "about 90 of 100" = inr 90.
Proof.
  destruct (grade_without_slash "about 90 of 100") as [H _];
    [reflexivity | vm_compute; lia | exact H].
Defined.

Lemma digit_not_slash c : is_digit c = true -> is_slash c = false.
Proof. unfold is_digit, is_slash. lia. Qed.

Lemma before_slash_digits d rest :
  all_digits d = true ->
  before_slash (d +:+ String "/" rest) = d /\
  contains_slash (d +:+ String "/" rest) = true.
Proof.
  induction d as [|c r IH]; [done |]. cbn [all_digits].
  intros H. apply andb_true_iff in H as [Hc Hr]. destruct (IH Hr) as [IH1 IH2].
  change (String c r +:+ String "/" rest) with (String c (r +:+ String "/" rest)).
  cbn [before_slash contains_slash]. by rewrite (digit_not_slash c Hc), IH1, IH2.
Qed.

Lemma int_digits_long m :
  all_digits m = true -> m <> EmptyString ->
  (int_max_str_digits < String.length m)%nat ->
  int m = inl ValueError.
Proof.
  intros Hd Hne Hlen. unfold int. rewrite (strip_digits m Hd).
  destruct m as [|c r] eqn:Em; [done |]. rewrite <- Em in *.
  assert (Hc : is_digit c = true).
  { rewrite Em in Hd. cbn [all_digits] in Hd. by apply andb_true_iff in Hd as [? _]. }
  rewrite (digit_not_minus c Hc), (digit_not_plus c Hc).
  unfold int_unsigned. rewrite int_body_digits by auto. cbn [Nat.add].
  by apply Nat.ltb_lt in Hlen as ->.
Qed.

(** X6: a grade text of the form digits, slash, anything gives the number
    that the digits before the slash denote, whatever follows the slash,
    as long as the digits are no more than the interpreter's limit on
    integer literals (4300); with more digits before the slash the
    expression raises [ValueError]. *)
Theorem grade_digits_slash (d rest : string) :
  all_digits d = true ->
  d <> EmptyString ->
  grade_of_text (d +:+ String "/" rest)
  = if (String.length d <=? int_max_str_digits)%nat
    then inr (digits_value 0 d) else inl ValueError.
Proof.
  intros Hd Hne. destruct (before_slash_digits d rest Hd) as [Hb Hc].
  rewrite grade_with_slash by done. rewrite Hb.
  destruct (String.length d <=? int_max_str_digits)%nat eqn:E.
  - apply Nat.leb_le in E. by apply int_digits.
  - apply Nat.leb_gt in E. by apply int_digits_long.
Qed.

Lemma grade_digits_slash_witness : grade_of_text "7/10 (late)" = inr 7.
Proof.
  exact (grade_digits_slash "7" "10 (late)" eq_refl ltac:(discriminate)).
Defined.

Lemma int_body_literal s : forall prev acc n x,
  int_body prev acc n s = Some x -> all_literal s = true.
Proof.
  induction s as [|c r IH]; intros prev acc n x; [done |]. cbn [int_body all_literal].
  unfold is_literal_char.
  destruct (is_digit c); [intros H; by rewrite (IH _ _ _ _ H) |].
  destruct (is_underscore c); [| done].
  destruct prev; [| done]. intros H. rewrite (IH _ _ _ _ H).
  by rewrite !orb_true_r.
Qed.

Lemma int_unsigned_foreign s : all_literal s = false -> int_unsigned s = inl ValueError.
Proof.
  intros H. unfold int_unsigned.
  destruct (int_body false 0 0 s) as [[v n]|] eqn:E; [| done].
  apply int_body_literal in E. congruence.
Qed.

Lemma all_literal_lstrip s : all_literal s = false -> all_literal (lstrip s) = false.
Proof.
  induction s as [|c r IH]; [done |]. cbn [all_literal lstrip]. intros H.
  destruct (is_space c) eqn:E; [| done].
  apply IH. unfold is_literal_char in H. rewrite E in H.
  by rewrite orb_true_r in H.
Qed.

Lemma space_is_literal c : is_space c = true -> is_literal_char c = true.
Proof. unfold is_literal_char. intros ->. by rewrite orb_true_r. Qed.

Lemma all_space_literal s : all_space s = true -> all_literal s = true.
Proof.
  induction s as [|c r IH]; [done |]. cbn [all_space all_literal].
  intros H. apply andb_true_iff in H as [Hc Hr].
  by rewrite (space_is_literal c Hc), IH.
Qed.

Lemma all_literal_rstrip s : all_literal s = false -> all_literal (rstrip s) = false.
Proof.
  induction s as [|c r IH]; [done |]. intros H. cbn [rstrip].
  destruct (all_space (String c r)) eqn:E.
  - apply all_space_literal in E. congruence.
  - cbn [all_literal] in *. destruct (is_literal_char c); [| done].
    cbn [andb] in *. by apply IH.
Qed.

(** [int] raises on a text with a character that no literal can hold. *)
Lemma int_foreign s : all_literal s = false -> int s = inl ValueError.
Proof.
  intros H. apply all_literal_lstrip, all_literal_rstrip in H.
  unfold int, strip. destruct (rstrip (lstrip s)) as [|c r]; [done |].
  cbn [all_literal] in H.
  destruct (is_minus c) eqn:Em.
  - unfold is_literal_char in H. rewrite Em in H.
    rewrite !orb_true_r in H. cbn [orb andb] in H. by rewrite int_unsigned_foreign.
  - destruct (is_plus c) eqn:Ep.
    + unfold is_literal_char in H. rewrite Ep in H.
      rewrite !orb_true_r in H. cbn [orb andb] in H. by rewrite int_unsigned_foreign.
    + apply int_unsigned_foreign. by cbn [all_literal].
Qed.

(** X7: when the grade text holds a slash and the part before the first
    slash holds a character that is no digit, sign, underscore or
    whitespace (a letter, a colon, a dot), the grade expression raises
    [ValueError]; no fallback to the digits in the text or to 0 is tried. *)
Theorem grade_slash_raises (g : string) :
  contains_slash g = true ->
  all_literal (before_slash g) = false ->
  grade_of_text g = inl ValueError.
Proof.
  intros Hs Hf. rewrite grade_with_slash by done. by apply int_foreign.
Qed.

Lemma grade_slash_raises_witness : grade_of_text "Score: 8/10" = inl ValueError.
Proof. apply grade_slash_raises; reflexivity. Defined.

End GradeInGeneral.

(** ** What a call records *)

Lemma dict_get_set_eq d k v : Dict.get (Dict.set d k v) k = Some v.
Proof.
  induction d as [|[k' v'] r IH]; simpl; [by rewrite String.eqb_refl |].
  destruct (String.eqb k' k) eqn:E; simpl; by rewrite E.
Qed.

Lemma dict_get_set_ne d k v k' :
  k' <> k -> Dict.get (Dict.set d k v) k' = Dict.get d k'.
Proof.
  intros Hne. induction d as [|[k0 v0] r IH]; simpl.
  - destruct (String.eqb_spec k k'); [congruence | done].
  - destruct (String.eqb_spec k0 k) as [-> |Hk]; simpl.
    + destruct (String.eqb_spec k k'); [congruence | done].
    + by rewrite IH.
Qed.

Lemma attached_other timestamp language assignment_name d k :
  is_attached_key k = false ->
  Dict.get (attached timestamp language assignment_name d) k = Dict.get d k.
Proof.
  unfold is_attached_key. intros H.
  apply orb_false_iff in H as [H Ha]. apply orb_false_iff in H as [Ht Hl].
  apply String.eqb_neq in Ht, Hl, Ha.
  unfold attached. by rewrite !dict_get_set_ne.
Qed.

(** A commit on a JSON object, stage by stage. *)
Lemma commit_object timestamp code language student_id assignment_name d s :
  commit timestamp code language student_id assignment_name (JDict d) s
  = match getitem (JDict (attached timestamp language assignment_name d))
                  "grade_estimate" with
    | inl e => (counted student_id s, inl e)
    | inr estimate =>
        match extract_key_issues (JDict (attached timestamp language assignment_name d)) with
        | inl e => (counted student_id s, inl e)
        | inr issues =>
            match grade_of estimate with
            | inl e =>
                (with_history student_id
                   (HistoryEntry timestamp assignment_name estimate issues) s, inl e)
            | inr g =>
                (committed student_id
                   (HistoryEntry timestamp assignment_name estimate issues)
                   (ProgressEntry timestamp assignment_name g)
                   (Submission code language assignment_name
                      (JDict (attached timestamp language assignment_name d)) timestamp)
                   (FeedbackEvent student_id assignment_name timestamp estimate) s,
                 inr (JDict (attached timestamp language assignment_name d)))
            end
        end
    end.
Proof.
  unfold commit, bind, lift, modify, ret, extract_key_issues. cbn [setitem].
  fold (attached timestamp language assignment_name d).
  repeat match goal with
         | |- context [match ?x with inl _ => _ | inr _ => _ end] =>
             destruct x eqn:?; try reflexivity
         end.
Qed.

Lemma analyze_code_object api_key timestamp code language student_id assignment_name d s :
  api_key <> ""%string ->
  analyze_code api_key (HttpReply 200 (Some (JDict d))) timestamp code language
    student_id assignment_name s
  = match commit timestamp code language student_id assignment_name (JDict d) s with
    | (s', inr fj) => (s', Feedback fj)
    | (s', inl e) => (s', CallError (Some e))
    end.
Proof.
  intros Hkey. unfold analyze_code.
  destruct (String.eqb_spec api_key ""); [done |]. reflexivity.
Qed.

(** When a call returns the feedback, and only then, the reply was a JSON
    object that went through all the stages of the commit. *)
Lemma analyze_code_success api_key reply timestamp code language student_id assignment_name
    s s' fj :
  analyze_code api_key reply timestamp code language student_id assignment_name s
    = (s', Feedback fj) ->
  exists d estimate issues g,
    api_key <> ""%string /\
    reply = HttpReply 200 (Some (JDict d)) /\
    fj = JDict (attached timestamp language assignment_name d) /\
    getitem fj "grade_estimate" = inr estimate /\
    extract_key_issues fj = inr issues /\
    grade_of estimate = inr g /\
    s' = committed student_id
           (HistoryEntry timestamp assignment_name estimate issues)
           (ProgressEntry timestamp assignment_name g)
           (Submission code language assignment_name fj timestamp)
           (FeedbackEvent student_id assignment_name timestamp estimate) s.
Proof.
  unfold analyze_code.
  destruct (String.eqb_spec api_key "") as [|Hkey]; [done |].
  destruct reply as [|status_code [fj0|]]; [done | | by destruct (status_code =? 200)].
  destruct (status_code =? 200) eqn:Hs; [| done]. apply Z.eqb_eq in Hs as ->.
  destruct fj0 as [| | | | |d]; try (cbn; discriminate).
  rewrite commit_object.
  destruct (getitem _ "grade_estimate") as [e|estimate] eqn:Hget; [done |].
  destruct (extract_key_issues _) as [e|issues] eqn:Hiss; [done |].
  destruct (grade_of estimate) as [e|g] eqn:Hg; [done |].
  intros [= <- <-]. exists d, estimate, issues, g. repeat split; done.
Qed.

(** X8: the document that a successful call returns is the decoded reply
    with three entries written into it: "timestamp", "language" and
    "assignment" hold the values of this call (replacing what the reply may
    have held under these keys), and every other key holds what the reply
    held. *)
Theorem returned_document api_key reply timestamp code language student_id assignment_name
    s s' fj :
  analyze_code api_key reply timestamp code language student_id assignment_name s
    = (s', Feedback fj) ->
  exists d,
    reply = HttpReply 200 (Some (JDict d)) /\
    getitem fj "timestamp" = inr (JStr timestamp) /\
    getitem fj "language" = inr (JStr language) /\
    getitem fj "assignment" = inr (JStr assignment_name) /\
    forall k, is_attached_key k = false -> getitem fj k = getitem (JDict d) k.
Proof.
  intros H. apply analyze_code_success in H
    as (d & est & iss & g & _ & -> & -> & _). exists d.
  split; [done |]. unfold getitem, attached.
  rewrite dict_get_set_eq.
  rewrite (dict_get_set_ne _ "assignment" _ "language") by done.
  rewrite dict_get_set_eq.
  rewrite (dict_get_set_ne _ "assignment" _ "timestamp") by done.
  rewrite (dict_get_set_ne _ "language" _ "timestamp") by done.
  rewrite dict_get_set_eq. repeat split.
  intros k Hk. fold (attached timestamp language assignment_name d).
  by rewrite attached_other.
Qed.

Lemma returned_document_witness :
  exists fj,
    (sample_call "85/100" "S1" initial_session).2 = Feedback fj /\
    getitem fj "timestamp" = inr (JStr "2024-05-01 10:00:00") /\
    getitem fj "overall_feedback" = inr (JStr "Good work").
Proof.
  destruct (sample_call "85/100" "S1" initial_session) as [s' o] eqn:Hcall.
  pose proof (f_equal snd Hcall) as Ho. vm_compute in Ho. subst o.
  unfold sample_call in Hcall.
  destruct (returned_document _ _ _ _ _ _ _ _ _ _ Hcall) as (d & Hd & Ht & _ & _ & Hk).
  eexists. split; [reflexivity |]. split; [exact Ht |].
  rewrite Hk by reflexivity. injection Hd as <-. reflexivity.
Defined.

(** X9: a successful call appends exactly one entry to each sequence of
    the student and adds one to the counter: the history gains the entry
    with the time, the assignment and the textual grade of the returned
    document, the progress gains the grade read from that text, the
    archive gains the submitted code together with the returned document,
    and the feedback log gains the event of this student. *)
Theorem successful_call_records api_key reply timestamp code language student_id
    assignment_name s s' fj :
  analyze_code api_key reply timestamp code language student_id assignment_name s
    = (s', Feedback fj) ->
  exists estimate issues g p',
    getitem fj "grade_estimate" = inr estimate /\
    extract_key_issues fj = inr issues /\
    grade_of estimate = inr g /\
    student_profiles s' !! student_id = Some p' /\
    submissions p' = submissions (profile_before student_id s) + 1 /\
    history p' = history (profile_before student_id s)
                 ++ [HistoryEntry timestamp assignment_name estimate issues] /\
    progress p' = progress (profile_before student_id s)
                  ++ [ProgressEntry timestamp assignment_name g] /\
    archive student_id s' = archive student_id s
                            ++ [Submission code language assignment_name fj timestamp] /\
    feedback_history s' = feedback_history s
                          ++ [FeedbackEvent student_id assignment_name timestamp estimate].
Proof.
  intros H. apply analyze_code_success in H
    as (d & est & iss & g & _ & _ & Hfj & Hget & Hiss & Hg & ->).
  exists est, iss, g. eexists.
  split; [exact Hget |]. split; [exact Hiss |]. split; [exact Hg |].
  split; [apply committed_lookup |].
  split; [reflexivity |]. split; [reflexivity |]. split; [reflexivity |].
  split; [apply committed_archive | apply committed_log].
Qed.

Lemma successful_call_records_witness :
  length (archive "S1" (sample_call "85/100" "S1" initial_session).1) = 1%nat /\
  length (feedback_history (sample_call "85/100" "S1" initial_session).1) = 1%nat.
Proof.
  destruct (sample_call "85/100" "S1" initial_session) as [s' o] eqn:Hcall.
  pose proof (f_equal snd Hcall) as Ho. vm_compute in Ho. subst o.
  unfold sample_call in Hcall.
  destruct (successful_call_records _ _ _ _ _ _ _ _ _ _ Hcall)
    as (est & iss & g & p' & _ & _ & _ & _ & _ & _ & _ & Harch & Hlog).
  cbn [fst]. rewrite Harch, Hlog. split; reflexivity.
Defined.



(** X11: a reply that holds nothing but a textual grade that can be read
    is accepted: without "logic_errors" and "conceptual_misunderstandings"
    the call returns the feedback and records a history entry without key
    issues. *)
Theorem minimal_reply_accepted api_key timestamp code language student_id assignment_name d s
    text g :
  api_key <> ""%string ->
  Dict.get d "grade_estimate" = Some (JStr text) ->
  grade_of_text text = inr g ->
  Dict.get d "logic_errors" = None ->
  Dict.get d "conceptual_misunderstandings" = None ->
  analyze_code api_key (HttpReply 200 (Some (JDict d))) timestamp code language
    student_id assignment_name s
  = (committed student_id
       (HistoryEntry timestamp assignment_name (JStr text) [])
       (ProgressEntry timestamp assignment_name g)
       (Submission code language assignment_name
          (JDict (attached timestamp language assignment_name d)) timestamp)
       (FeedbackEvent student_id assignment_name timestamp (JStr text)) s,
     Feedback (JDict (attached timestamp language assignment_name d))).
Proof.
  intros Hkey Hest Hg Hlog Hmis.
  rewrite analyze_code_object by done. rewrite commit_object.
  unfold getitem, extract_key_issues, get_or_empty.
  rewrite !attached_other by reflexivity. rewrite Hest, Hlog, Hmis.
  change (default (JList []) None) with (JList []).
  cbn [iterate comprehension app grade_of]. by rewrite Hg.
Qed.

Lemma minimal_reply_accepted_witness :
  exists s',
    analyze_code "gsk" (HttpReply 200 (Some (JDict [("grade_estimate"%string, JStr "70")])))
      "2024-05-01 10:00:00" "print(1)" "python" "S1" "A1" initial_session
    = (s', Feedback (JDict (attached "2024-05-01 10:00:00" "python" "A1"
                              [("grade_estimate"%string, JStr "70")]))).
Proof.
  eexists.
  apply (minimal_reply_accepted _ _ _ _ _ _ _ _ "70" 70);
    [discriminate | reflexivity | reflexivity | reflexivity | reflexivity].
Defined.

(** ** The history in the prompt *)

(** X12: the history that is put into the prompt is the end of the
    student's history: its last three entries in their order, or all of
    them when there are fewer than three (none for a student without
    history or without profile). *)
Theorem prompt_history_is_suffix (h : list history_entry) :
  exists older,
    h = older ++ prompt_history h /\
    length (prompt_history h) = Nat.min 3 (length h).
Proof.
  exists (take (length h - 3) h). unfold prompt_history.
  destruct h as [|x r] eqn:E; [done |]. rewrite <- E.
  assert ((0 <? length h)%nat = true) as -> by (subst h; done).
  split; [by rewrite take_drop |]. rewrite length_drop. lia.
Qed.

(** X13: after a successful call the history that the next prompt for the
    same student holds ends with the entry of this call, and has at most
    three entries. *)
Theorem prompt_history_after_call api_key reply timestamp code language student_id
    assignment_name s s' fj :
  analyze_code api_key reply timestamp code language student_id assignment_name s
    = (s', Feedback fj) ->
  exists estimate issues,
    getitem fj "grade_estimate" = inr estimate /\
    last (prompt_history (student_history student_id s'))
    = Some (HistoryEntry timestamp assignment_name estimate issues) /\
    (length (prompt_history (student_history student_id s')) <= 3)%nat.
Proof.
  intros H. apply analyze_code_success in H
    as (d & est & iss & g & _ & _ & _ & Hget & _ & _ & ->).
  exists est, iss. split; [exact Hget |].
  unfold student_history. rewrite committed_lookup.
  cbn [history append_progress append_history count_submission].
  set (h0 := history (profile_before student_id s)).
  unfold prompt_history. rewrite length_app. cbn [length].
  assert ((0 <? length h0 + 1)%nat = true) as -> by (apply Nat.ltb_lt; lia).
  split.
  - rewrite drop_app_le by lia. apply last_snoc.
  - rewrite length_drop, length_app. cbn [length]. lia.
Qed.

Lemma prompt_history_after_call_witness :
  length (prompt_history
            (student_history "S1" (sample_call "85/100" "S1" initial_session).1)) = 1%nat.
Proof.
  destruct (sample_call "85/100" "S1" initial_session) as [s' o] eqn:Hcall.
  pose proof (f_equal snd Hcall) as Ho. vm_compute in Ho. subst o.
  pose proof (f_equal fst Hcall) as Hs. cbn [fst] in Hs.
  unfold sample_call in Hcall.
  destruct (prompt_history_after_call _ _ _ _ _ _ _ _ _ _ Hcall) as (est & iss & _ & _ & _).
  cbn [fst]. rewrite <- Hs. reflexivity.
Defined.

(** ** Analytics after a call *)

(** X14: after a successful call the latest grade of the student is the
    grade read from the textual grade of the returned document; the
    improvement is that grade minus the grade of the student's first
    progress entry, and no improvement is shown after a first
    submission. *)
Theorem analytics_after_call api_key reply timestamp code language student_id assignment_name
    s s' fj :
  analyze_code api_key reply timestamp code language student_id assignment_name s
    = (s', Feedback fj) ->
  exists text g p',
    getitem fj "grade_estimate" = inr (JStr text) /\
    grade_of_text text = inr g /\
    student_profiles s' !! student_id = Some p' /\
    latest_grade p' = Some g /\
    improvement p'
    = match progress (profile_before student_id s) with
      | [] => None
      | first_entry :: _ => Some (g - grade first_entry)
      end.
Proof.
  intros H. apply analyze_code_success in H
    as (d & est & iss & g & _ & _ & _ & Hget & _ & Hg & ->).
  destruct (grade_of_text_only est g Hg) as [text ->].
  exists text, g. eexists. split; [exact Hget |]. split; [exact Hg |].
  split; [apply committed_lookup |].
  unfold latest_grade, improvement, has_history.
  cbn [history progress append_progress append_history count_submission].
  destruct (history (profile_before student_id s) ++ _) as [|h0 hr] eqn:Eh;
    [by destruct (history (profile_before student_id s)) |].
  set (p0 := progress (profile_before student_id s)).
  rewrite last_snoc. split; [done |].
  destruct p0 as [|f r]; [done |].
  rewrite length_app. cbn [length app lookup list_lookup].
  assert ((1 <? S (length r) + 1)%nat = true) as -> by (apply Nat.ltb_lt; lia).
  done.
Qed.

Lemma analytics_after_call_witness :
  exists p',
    student_profiles (sample_call "85/100" "S1" initial_session).1 !! "S1"%string = Some p' /\
    latest_grade p' = Some 85 /\ improvement p' = None.
Proof.
  destruct (sample_call "85/100" "S1" initial_session) as [s' o] eqn:Hcall.
  pose proof (f_equal snd Hcall) as Ho. vm_compute in Ho. subst o.
  unfold sample_call in Hcall.
  destruct (analytics_after_call _ _ _ _ _ _ _ _ _ _ Hcall)
    as (text & g & p' & Hget & Hg & Hp & Hl & Hi).
  exists p'. split; [exact Hp |].
  vm_compute in Hget. injection Hget as <-.
  vm_compute in Hg. injection Hg as <-. split; [exact Hl | exact Hi].
Defined.

(** X15: the list of recent submissions never has more than five entries
    and shows the newest first: after a successful call it begins with the
    entry of that call, followed by the four newest entries from
    before. *)
Theorem recent_submissions_after_call api_key reply timestamp code language student_id
    assignment_name s s' fj :
  analyze_code api_key reply timestamp code language student_id assignment_name s
    = (s', Feedback fj) ->
  exists estimate issues p',
    getitem fj "grade_estimate" = inr estimate /\
    student_profiles s' !! student_id = Some p' /\
    recent_submissions p'
    = HistoryEntry timestamp assignment_name estimate issues
      :: take 4 (reverse (history (profile_before student_id s))) /\
    (length (recent_submissions p') <= 5)%nat.
Proof.
  intros H. apply analyze_code_success in H
    as (d & est & iss & g & _ & _ & _ & Hget & _ & _ & ->).
  exists est, iss. eexists. split; [exact Hget |].
  split; [apply committed_lookup |]. unfold recent_submissions.
  cbn [history append_progress append_history count_submission].
  rewrite reverse_app. cbn [reverse rev_append app take].
  split; [done |]. cbn [length]. rewrite length_take. lia.
Qed.

Lemma recent_submissions_after_call_witness :
  exists p',
    student_profiles (sample_call "85/100" "S1" initial_session).1 !! "S1"%string = Some p' /\
    length (recent_submissions p') = 1%nat.
Proof.
  destruct (sample_call "85/100" "S1" initial_session) as [s' o] eqn:Hcall.
  pose proof (f_equal snd Hcall) as Ho. vm_compute in Ho. subst o.
  pose proof (f_equal fst Hcall) as Hs. cbn [fst] in Hs.
  unfold sample_call in Hcall.
  destruct (recent_submissions_after_call _ _ _ _ _ _ _ _ _ _ Hcall)
    as (est & iss & p' & _ & Hp & Hrec & _).
  exists p'. split; [exact Hp |]. rewrite Hrec. reflexivity.
Defined.

(** ** The pages *)

Lemma select_student_profiles selected s :
  student_profiles (select_student selected s) = student_profiles s.
Proof. unfold select_student. by destruct (decide _). Qed.

Lemma select_student_current selected s :
  current_student (select_student selected s) = Some selected.
Proof. unfold select_student. by destruct (decide _). Qed.

Lemma add_student_selection new_student s :
  current_student (add_student new_student s) = current_student s.
Proof.
  unfold add_student. destruct (String.eqb new_student ""); [done |].
  apply ensure_profile_selection.
Qed.

Lemma add_student_empty_id new_student s :
  student_profiles s !! ""%string = None ->
  student_profiles (add_student new_student s) !! ""%string = None.
Proof.
  intros H. unfold add_student. destruct (String.eqb_spec new_student ""); [done |].
  by rewrite ensure_profile_lookup_ne.
Qed.

Lemma analyze_code_keeps api_key reply timestamp code language student_id assignment_name
    s s' o any_student :
  analyze_code api_key reply timestamp code language student_id assignment_name s = (s', o) ->
  is_Some (student_profiles s !! any_student) ->
  is_Some (student_profiles s' !! any_student).
Proof.
  intros H Hs. apply analyze_code_effect in H as (Hother & Hprof & _).
  destruct (decide (any_student = student_id)) as [-> |Hne].
  - destruct Hprof as [-> |(p' & -> & _)]; eauto.
  - by destruct (Hother _ Hne) as [-> _].
Qed.

Lemma selection_is_registered s :
  page_reachable s ->
  (forall student_id,
      current_student s = Some student_id -> is_Some (student_profiles s !! student_id)) /\
  student_profiles s !! ""%string = None.
Proof.
  induction 1 as [|n s Hr [IHc IHe]|sel s Hr [IHc IHe] Hsel|clicked k r ts c l a s Hr [IHc IHe]].
  - split; [done | apply lookup_empty].
  - split; [| by apply add_student_empty_id].
    intros id Hid. rewrite add_student_selection in Hid.
    rewrite add_student_keeps; auto.
  - rewrite select_student_profiles. split; [| done].
    intros id Hid. rewrite select_student_current in Hid. by injection Hid as <-.
  - unfold display_code_submission.
    destruct (current_student s) as [cur|] eqn:Ecur; [| cbn [fst]; by rewrite ?Ecur].
    destruct (String.eqb_spec cur "") as [|Hne]; [cbn [fst]; by rewrite ?Ecur |].
    destruct (clicked && negb (String.eqb c "")); [| cbn [fst]; by rewrite ?Ecur].
    destruct (analyze_code k r ts c l cur a s) as [s' o] eqn:Hcall. cbn [fst].
    pose proof (analyze_code_effect _ _ _ _ _ _ _ _ _ _ Hcall) as (Hother & _ & _ & Hsel & _).
    split.
    + intros id Hid. rewrite Hsel in Hid.
      eapply analyze_code_keeps; [exact Hcall | apply IHc; congruence].
    + destruct (Hother ""%string) as [-> _]; [congruence | done].
Qed.

(** X16: in every session reached through the pages the current student,
    when there is one, is a student that was added in the sidebar and has
    a profile, and no profile is stored under the empty id. *)
Theorem current_student_registered (s : session) :
  page_reachable s ->
  (forall student_id,
      current_student s = Some student_id ->
      student_id <> ""%string /\ is_Some (student_profiles s !! student_id)) /\
  student_profiles s !! ""%string = None.
Proof.
  intros Hr. destruct (selection_is_registered s Hr) as [Hc He].
  split; [| exact He]. intros id Hid. specialize (Hc id Hid).
  split; [| exact Hc]. intros ->. rewrite He in Hc. by destruct Hc.
Qed.

Lemma current_student_registered_witness :
  is_Some (student_profiles (select_student "S1" (add_student "S1" initial_session))
             !! "S1"%string).
Proof.
  destruct (current_student_registered (select_student "S1" (add_student "S1" initial_session)))
    as [Hc _].
  - apply page_select_student; [apply page_add_student, page_initial |].
    vm_compute. eauto.
  - destruct (Hc "S1"%string) as [_ H]; [reflexivity | exact H].
Defined.

(** X17: a submission on the submission page never adds a student: in a
    session reached through the pages the students that have a profile
    are the same before and after it, and so is the current student; when
    no student is selected, the page changes nothing at all. *)
Theorem submission_page_keeps_students analyze_clicked api_key reply timestamp code language
    assignment_name (s : session) :
  page_reachable s ->
  dom (student_profiles
         (display_code_submission analyze_clicked api_key reply timestamp code language
            assignment_name s).1)
  = dom (student_profiles s) /\
  current_student
    (display_code_submission analyze_clicked api_key reply timestamp code language
       assignment_name s).1
  = current_student s /\
  (current_student s = None ->
   display_code_submission analyze_clicked api_key reply timestamp code language
     assignment_name s = (s, None)).
Proof.
  intros Hr. destruct (selection_is_registered s Hr) as [Hc _].
  unfold display_code_submission.
  destruct (current_student s) as [cur|] eqn:Ecur; [| cbn [fst]; by rewrite ?Ecur].
  specialize (Hc cur eq_refl).
  destruct (String.eqb cur ""); [cbn [fst]; by rewrite ?Ecur |].
  destruct (analyze_clicked && negb (String.eqb code "")); [| cbn [fst]; by rewrite ?Ecur].
  destruct (analyze_code api_key reply timestamp code language cur assignment_name s)
    as [s' o] eqn:Hcall. cbn [fst].
  pose proof (analyze_code_effect _ _ _ _ _ _ _ _ _ _ Hcall) as (Hother & Hprof & _ & Hsel & _).
  split; [| split; [by rewrite Hsel | done]].
  apply set_eq. intros id. rewrite !elem_of_dom.
  destruct (decide (id = cur)) as [-> |Hne].
  - split; [done |]. intros _. by eapply analyze_code_keeps.
  - by destruct (Hother id Hne) as [-> _].
Qed.

Lemma submission_page_keeps_students_witness :
  dom (student_profiles
         (display_code_submission true "gsk" (HttpReply 200 (Some (sample_feedback "85/100")))
            "2024-05-01 10:00:00" "print(1)" "python" "A1"
            (select_student "S1" (add_student "S1" initial_session))).1)
  = dom (student_profiles (select_student "S1" (add_student "S1" initial_session))).
Proof.
  apply submission_page_keeps_students.
  apply page_select_student; [apply page_add_student, page_initial |].
  vm_compute. eauto.
Defined.

(** ** The panel of previous submissions *)

Lemma index_of_Some x l i :
  index_of x l = Some i ->
  l !! i = Some x /\ forall j y, (j < i)%nat -> l !! j = Some y -> y <> x.
Proof.
  revert i. induction l as [|y r IH]; intros i; [done |]. cbn [index_of].
  destruct (String.eqb_spec y x) as [-> |Hne].
  - intros [= <-]. split; [done |]. intros j z Hj. lia.
  - destruct (index_of x r) as [k|] eqn:E; [| done]. intros [= <-].
    destruct (IH k eq_refl) as [Hk Hbefore]. split; [done |].
    intros [|j] z Hj; cbn; [by intros [= <-] |].
    apply Hbefore. lia.
Qed.

Lemma index_of_found x l k :
  l !! k = Some x -> exists i, index_of x l = Some i /\ (i <= k)%nat.
Proof.
  revert k. induction l as [|y r IH]; intros k; [done |]. cbn [index_of].
  destruct (String.eqb_spec y x) as [-> |Hne].
  - intros _. exists 0%nat. split; [done | lia].
  - destruct k as [|k]; cbn; [by intros [= ->] |].
    intros Hk. destruct (IH k Hk) as (i & -> & Hi). exists (S i). split; [done | lia].
Qed.

Lemma index_of_NoDup x l k :
  NoDup l -> l !! k = Some x -> index_of x l = Some k.
Proof.
  intros Hnd Hk. destruct (index_of_found x l k Hk) as (i & Hi & _).
  destruct (index_of_Some x l i Hi) as [Hli _].
  by rewrite (NoDup_lookup l i k x Hnd Hli Hk) in Hi.
Qed.

(** X18: the panel shows the first submission that carries the label of
    the selected option.  For every option that can be selected a
    submission is shown; it has the same label as the selected one, stands
    at or before its position, and no submission before it has that
    label. *)
Theorem panel_shows_first_with_label (submissions : list submission) (chosen : nat)
    (x : submission) :
  submissions !! chosen = Some x ->
  exists i y,
    shown_submission submissions chosen = Some y /\
    submissions !! i = Some y /\
    (i <= chosen)%nat /\
    submission_label y = submission_label x /\
    forall j z, (j < i)%nat -> submissions !! j = Some z ->
                submission_label z <> submission_label x.
Proof.
  intros Hx. unfold shown_submission.
  assert (Hl : map submission_label submissions !! chosen = Some (submission_label x)).
  { change (map submission_label submissions) with (submission_label <$> submissions).
    by rewrite list_lookup_fmap, Hx. }
  rewrite Hl. destruct (index_of_found _ _ _ Hl) as (i & Hi & Hle). rewrite Hi.
  destruct (index_of_Some _ _ _ Hi) as [Hli Hbefore].
  change (map submission_label submissions) with (submission_label <$> submissions)
    in Hli, Hbefore.
  rewrite list_lookup_fmap in Hli.
  destruct (submissions !! i) as [y|] eqn:Ey; [| done]. injection Hli as Hy.
  exists i, y. repeat split; try done.
  intros j z Hj Hz. apply (Hbefore j); [done |]. by rewrite list_lookup_fmap, Hz.
Qed.

Lemma panel_shows_first_with_label_witness :
  shown_submission [Submission "a" "python" "A1" JNull "t1";
                    Submission "b" "python" "A1" JNull "t1"] 1
  = Some (Submission "a" "python" "A1" JNull "t1").
Proof.
  destruct (panel_shows_first_with_label
              [Submission "a" "python" "A1" JNull "t1";
               Submission "b" "python" "A1" JNull "t1"] 1
              (Submission "b" "python" "A1" JNull "t1") eq_refl)
    as (i & y & Hshown & _).
  rewrite Hshown. vm_compute in Hshown. congruence.
Defined.

(** X19: when no two submissions of the student carry the same label
    (the assignment name together with the time to the second), the panel
    shows the submission that was selected; the default selection is the
    latest one. *)
Theorem panel_shows_selected (submissions : list submission) (chosen : nat) :
  NoDup (map submission_label submissions) ->
  shown_submission submissions chosen = submissions !! chosen.
Proof.
  intros Hnd. unfold shown_submission.
  change (map submission_label submissions) with (submission_label <$> submissions) in *.
  rewrite list_lookup_fmap.
  destruct (submissions !! chosen) as [x|] eqn:Hx; [| done]. cbn [fmap option_fmap option_map].
  rewrite (index_of_NoDup (submission_label x) _ chosen Hnd); [done |].
  by rewrite list_lookup_fmap, Hx.
Qed.

Lemma panel_shows_selected_witness :
  shown_submission [Submission "a" "python" "A1" JNull "t1";
                    Submission "b" "python" "A1" JNull "t2"] 1
  = Some (Submission "b" "python" "A1" JNull "t2").
Proof.
  rewrite panel_shows_selected; [reflexivity |].
  apply (bool_decide_unpack _). vm_compute. exact I.
Defined.

(** ** The class overview *)

Section Totals.

Lemma total_insert_fresh (m : gmap string profile) i x :
  m !! i = None ->
  map_fold add_counter 0 (<[i:=x]> m) = submissions x + map_fold add_counter 0 m.
Proof.
  intros H. rewrite map_fold_insert_L; [done | | done].
  intros. unfold add_counter. lia.
Qed.

Lemma total_lookup (m : gmap string profile) i p :
  m !! i = Some p ->
  map_fold add_counter 0 m = submissions p + map_fold add_counter 0 (delete i m).
Proof.
  intros H. rewrite (map_fold_delete_L _ _ i p m); [done | | done].
  intros. unfold add_counter. lia.
Qed.

Lemma total_insert (m : gmap string profile) i x :
  map_fold add_counter 0 (<[i:=x]> m)
  = submissions x + map_fold add_counter 0 m
    - from_option submissions 0 (m !! i).
Proof.
  destruct (m !! i) as [p|] eqn:E; cbn.
  - rewrite <- insert_delete_eq, total_insert_fresh by apply lookup_delete_eq.
    rewrite (total_lookup m i p E). lia.
  - rewrite total_insert_fresh by done. lia.
Qed.

Lemma total_submissions_add_student new_student s :
  total_submissions (add_student new_student s) = total_submissions s.
Proof.
  unfold add_student. destruct (String.eqb new_student ""); [done |].
  unfold ensure_profile. destruct (student_profiles s !! new_student) eqn:E; [done |].
  unfold total_submissions, with_profiles; cbn [student_profiles].
  rewrite total_insert_fresh by done. cbn. lia.
Qed.

Lemma committed_profiles student_id h g x e s :
  student_profiles (committed student_id h g x e s)
  = <[student_id := append_progress g
                      (append_history h (count_submission (profile_before student_id s)))]>
      (student_profiles s).
Proof.
  apply map_eq. intros i. destruct (decide (i = student_id)) as [-> |Hne].
  - by rewrite committed_lookup, lookup_insert_eq.
  - rewrite committed_lookup_ne by done. by rewrite lookup_insert_ne.
Qed.

Lemma total_submissions_committed student_id h g x e s :
  total_submissions (committed student_id h g x e s) = total_submissions s + 1.
Proof.
  unfold total_submissions. rewrite committed_profiles.
  rewrite total_insert. unfold profile_before.
  destruct (student_profiles s !! student_id); cbn; lia.
Qed.

End Totals.

(** X20: in every session reached by registrations and by calls of
    [analyze_code] none of which raised inside the commit, the total of
    submissions shown in the class overview, the sum of the counters of all
    students, is the number of entries of the feedback log. *)
Theorem total_submissions_is_log_length (s : session) :
  reachable no_raise_in_commit s ->
  total_submissions s = Z.of_nat (length (feedback_history s)).
Proof.
  induction 1 as [|n s Hr IH|k r ts c l id a s s' o Hr IH Hcall Hok].
  - done.
  - rewrite total_submissions_add_student, IH. f_equal. f_equal.
    unfold add_student. destruct (String.eqb n ""); [done |].
    symmetry. apply ensure_profile_log.
  - apply analyze_code_stages in Hcall.
    destruct Hcall as [(-> & _) | [(e & _ & ->) | [(e & est & iss & _ & -> & _)
                     | (fj & est & iss & g & _ & _ & _ & ->)]]];
      [done | done | done |].
    rewrite total_submissions_committed, committed_log, length_app, IH. cbn. lia.
Qed.

Lemma total_submissions_is_log_length_witness :
  total_submissions
    (sample_call "90/100" "S2"
       (sample_call "85/100" "S1" (add_student "S1" initial_session)).1).1 = 2.
Proof.
  rewrite total_submissions_is_log_length; [reflexivity |].
  apply reachable_call; [apply reachable_call; [repeat constructor | exact I] | exact I].
Defined.

Section RecentFeedback.

Lemma leb_le a b : String.leb a b = true <-> String.le a b.
Proof. unfold String.le. by destruct (String.leb a b). Qed.

Lemma leb_false_le a b : String.leb a b = false -> String.le b a.
Proof.
  intros H. destruct (String.leb_total a b) as [H'|H']; [congruence | by apply leb_le].
Qed.

Lemma insert_newest_Permutation e l : insert_newest e l ≡ₚ e :: l.
Proof.
  induction l as [|y r IH]; cbn [insert_newest]; [done |].
  destruct (String.leb (ev_timestamp y) (ev_timestamp e)); [done |].
  rewrite IH. apply perm_swap.
Qed.

Lemma sorted_newest_first_Permutation l : sorted_newest_first l ≡ₚ l.
Proof.
  induction l as [|x r IH]; [done |]. cbn [sorted_newest_first foldr].
  rewrite insert_newest_Permutation. by constructor.
Qed.

Lemma insert_newest_sorted e l :
  StronglySorted newest_first l -> StronglySorted newest_first (insert_newest e l).
Proof.
  induction 1 as [|y r Hr IH Hall]; cbn [insert_newest]; [repeat constructor |].
  destruct (String.leb (ev_timestamp y) (ev_timestamp e)) eqn:E.
  - apply leb_le in E. constructor; [by constructor |].
    constructor; [exact E |]. eapply Forall_impl; [exact Hall |].
    unfold newest_first. intros z Hz. by etrans.
  - apply leb_false_le in E. constructor; [done |].
    rewrite insert_newest_Permutation. by constructor.
Qed.

Lemma sorted_newest_first_sorted l : StronglySorted newest_first (sorted_newest_first l).
Proof.
  induction l as [|x r IH]; [constructor |]. by apply insert_newest_sorted.
Qed.

Lemma events_at_insert t e l :
  events_at t (insert_newest e l) = events_at t (e :: l).
Proof.
  unfold events_at. induction l as [|y r IH]; cbn [insert_newest]; [done |].
  destruct (String.leb (ev_timestamp y) (ev_timestamp e)) eqn:E; [done |].
  rewrite (filter_cons _ y (insert_newest e r)), IH.
  rewrite (filter_cons _ e (y :: r)), (filter_cons _ e r), (filter_cons _ y r).
  destruct (decide (ev_timestamp y = t)) as [Hy|Hy];
    destruct (decide (ev_timestamp e = t)) as [He|He]; try done.
  exfalso. rewrite Hy, He in E.
  assert (String.leb t t = true) by (by apply leb_le). congruence.
Qed.

Lemma events_at_sorted t l : events_at t (sorted_newest_first l) = events_at t l.
Proof.
  induction l as [|x r IH]; [done |]. cbn [sorted_newest_first foldr].
  fold (sorted_newest_first r). rewrite events_at_insert.
  unfold events_at in *. by rewrite !filter_cons, IH.
Qed.

Lemma insert_newest_oldest e l :
  Forall (fun y => String.leb (ev_timestamp y) (ev_timestamp e) = false) l ->
  insert_newest e l = l ++ [e].
Proof.
  induction 1 as [|y r Hy Hr IH]; [done |]. cbn [insert_newest]. by rewrite Hy, IH.
Qed.

Lemma sorted_newest_first_chronological l :
  StronglySorted strictly_later l -> sorted_newest_first l = reverse l.
Proof.
  induction 1 as [|x r Hr IH Hall]; [done |]. cbn [sorted_newest_first foldr].
  fold (sorted_newest_first r). rewrite IH, reverse_cons.
  apply insert_newest_oldest. rewrite Forall_forall in *.
  intros y Hy. rewrite elem_of_reverse in Hy. exact (Hall y Hy).
Qed.

End RecentFeedback.

Lemma recent_feedback_shown s :
  total_students s <> 0%nat ->
  recent_feedback s = take 10 (sorted_newest_first (feedback_history s)).
Proof.
  intros H. unfold recent_feedback.
  by destruct (Nat.eqb_spec (total_students s) 0).
Qed.

(** X21: when some student is registered (otherwise the page returns
    before it comes to the table), the table of recent feedback holds the
    events of the log with the latest timestamps: it has ten rows, or as
    many as the log has when these are fewer, its rows are in order of
    non-increasing timestamp, they are events of the log, each as often as
    it is there, and no event that is left out is later than a row of the
    table. *)
Theorem recent_feedback_latest (s : session) :
  total_students s <> 0%nat ->
  exists older,
    feedback_history s ≡ₚ recent_feedback s ++ older /\
    StronglySorted newest_first (recent_feedback s) /\
    length (recent_feedback s) = Nat.min 10 (length (feedback_history s)) /\
    forall x y, x ∈ recent_feedback s -> y ∈ older -> newest_first x y.
Proof.
  intros Hshown. rewrite (recent_feedback_shown s Hshown).
  exists (drop 10 (sorted_newest_first (feedback_history s))).
  pose proof (sorted_newest_first_sorted (feedback_history s)) as Hsorted.
  rewrite <- (take_drop 10 (sorted_newest_first (feedback_history s))) in Hsorted.
  split; [by rewrite take_drop, sorted_newest_first_Permutation |].
  split; [by apply StronglySorted_app_1_l in Hsorted |].
  split; [by rewrite length_take, sorted_newest_first_Permutation |].
  intros x y Hx Hy. exact (StronglySorted_app_1_elem_of _ _ _ x y Hsorted Hx Hy).
Qed.

Lemma recent_feedback_latest_witness :
  length (recent_feedback (sample_call "85/100" "S1" initial_session).1) = 1%nat.
Proof.
  destruct (recent_feedback_latest (sample_call "85/100" "S1" initial_session).1)
    as (older & _ & _ & Hlen & _); [vm_compute; lia | exact Hlen].
Defined.

(** X22: the order of the table is stable: the events of the table that
    carry one and the same timestamp stand in the order in which they were
    logged, and they are the first of the log's events with that
    timestamp. *)
Theorem recent_feedback_stable (s : session) (t : string) :
  events_at t (recent_feedback s) `prefix_of` events_at t (feedback_history s).
Proof.
  unfold recent_feedback. destruct (total_students s =? 0)%nat; [apply prefix_nil |].
  rewrite <- (events_at_sorted t (feedback_history s)). unfold events_at.
  rewrite <- (take_drop 10 (sorted_newest_first (feedback_history s))) at 2.
  rewrite filter_app. by apply prefix_app_r.
Qed.

(** X23: when some student is registered and every entry of the feedback
    log is strictly later than the entries before it, the table of recent
    feedback is the end of the log read backwards: its last ten entries,
    the newest first. *)
Theorem recent_feedback_chronological (s : session) :
  total_students s <> 0%nat ->
  StronglySorted strictly_later (feedback_history s) ->
  recent_feedback s = take 10 (reverse (feedback_history s)).
Proof.
  intros Hshown H. rewrite (recent_feedback_shown s Hshown).
  by rewrite sorted_newest_first_chronological.
Qed.

Lemma recent_feedback_chronological_witness :
  recent_feedback
    (analyze_code "gsk" (HttpReply 200 (Some (sample_feedback "80/100")))
       "2024-05-01 10:00:05" "print(2)" "python" "S2" "A1"
       (sample_call "70/100" "S1" initial_session).1).1
  = [FeedbackEvent "S2" "A1" "2024-05-01 10:00:05" (JStr "80/100");
     FeedbackEvent "S1" "A1" "2024-05-01 10:00:00" (JStr "70/100")].
Proof.
  rewrite recent_feedback_chronological; [reflexivity | vm_compute; lia |].
  change (StronglySorted strictly_later
            [FeedbackEvent "S1" "A1" "2024-05-01 10:00:00" (JStr "70/100");
             FeedbackEvent "S2" "A1" "2024-05-01 10:00:05" (JStr "80/100")]).
  repeat constructor.
Defined.

(** ** Issues that cannot be counted *)

(** X24: the counting of key issues for the chart raises [TypeError]
    exactly when some key issue of the history is a list or an object
    (which a reply can hold as a description or a concept, and which a
    commit records as it is); otherwise it returns the counts. *)
Theorem chart_raises_on_unhashable (p : profile) :
  (count_issues (all_issues p) [] = inl TypeError <->
   Exists (fun x => key_of x = None) (all_issues p)) /\
  ((exists issue_counts, count_issues (all_issues p) [] = inr issue_counts) <->
   Forall (fun x => is_Some (key_of x)) (all_issues p)).
Proof.
  assert (Hdec : Exists (fun x => key_of x = None) (all_issues p) \/
                 Forall (fun x => is_Some (key_of x)) (all_issues p)).
  { induction (all_issues p) as [|x r IH]; [right; constructor |].
    destruct (key_of x) as [k|] eqn:Hk; [| left; by left].
    destruct IH as [IH|IH]; [left; by right | right]. constructor; [by rewrite Hk | done]. }
  split; split.
  - intros H. destruct Hdec as [He|Hf]; [done |].
    destruct (count_issues_total _ [] Hf) as [counts Hc]. congruence.
  - apply count_issues_raises.
  - intros [counts Hc]. destruct Hdec as [He|Hf]; [| done].
    rewrite (count_issues_raises _ [] He) in Hc. done.
  - apply count_issues_total.
Qed.

(** ** Archived documents *)

Lemma attached_keys timestamp language assignment_name d :
  Dict.get (attached timestamp language assignment_name d) "timestamp"
    = Some (JStr timestamp) /\
  Dict.get (attached timestamp language assignment_name d) "language"
    = Some (JStr language) /\
  Dict.get (attached timestamp language assignment_name d) "assignment"
    = Some (JStr assignment_name).
Proof.
  unfold attached. repeat split.
  - rewrite (dict_get_set_ne _ "assignment" _ "timestamp") by done.
    rewrite (dict_get_set_ne _ "language" _ "timestamp") by done.
    apply dict_get_set_eq.
  - rewrite (dict_get_set_ne _ "assignment" _ "language") by done.
    apply dict_get_set_eq.
  - apply dict_get_set_eq.
Qed.

(** X25: in every session reached by registrations and calls of
    [analyze_code], however the calls ended, every archived submission
    holds a document with a textual grade under "grade_estimate" and with
    the time, the language and the assignment of that submission: the
    header of the panel of previous submissions finds the keys it
    reads. *)
Theorem archived_documents_complete (s : session) :
  reachable any_outcome s ->
  forall student_id x, x ∈ archive student_id s -> well_archived x.
Proof.
  induction 1 as [|n s Hr IH|k r ts c l id a s s' o Hr IH Hcall _]; intros sid x Hx.
  - by apply elem_of_nil in Hx.
  - unfold archive in Hx. rewrite add_student_archives in Hx. by apply (IH sid).
  - destruct o as [| | | |fj].
    5:{ apply analyze_code_success in Hcall
          as (d & est & iss & g & _ & _ & -> & Hget & _ & Hg & ->).
        destruct (decide (sid = id)) as [-> |Hne].
        - rewrite committed_archive in Hx. apply elem_of_app in Hx as [Hx|Hx];
            [by apply (IH id) |].
          apply list_elem_of_singleton in Hx as ->.
          destruct (grade_of_text_only est g Hg) as [text ->].
          destruct (attached_keys ts l a d) as (Ht & Hl & Ha).
          unfold well_archived, getitem in *. cbn [sub_feedback sub_timestamp
            sub_language sub_assignment]. rewrite Ht, Hl, Ha. eauto.
        - unfold archive in Hx. rewrite committed_archive_ne in Hx by done.
          by apply (IH sid). }
    all: apply analyze_code_stages in Hcall;
      destruct Hcall as [(-> & _) | [(e1 & -> & _) | [(e2 & est & iss & -> & _)
                       | (fj & est & iss & g & Ho & _)]]];
      try discriminate Ho; unfold archive in Hx;
      rewrite ?counted_archives, ?with_history_archives in Hx; by apply (IH sid).
Qed.

Lemma archived_documents_complete_witness :
  Forall well_archived (archive "S1" (sample_call "85/100" "S1" initial_session).1).
Proof.
  apply Forall_forall. intros x Hx.
  apply (archived_documents_complete (sample_call "85/100" "S1" initial_session).1)
    with (student_id := "S1"%string); [| exact Hx].
  apply reachable_call; [constructor | exact I].
Defined.

(** ** The feedback tab *)

Section FeedbackTab.

Lemma if_nonempty_passed_over d field block :
  passed_over d field -> if_nonempty (JDict d) field block = page_ret tt.
Proof.
  unfold passed_over, if_nonempty, get_or_none, value, page_bind. by intros ->.
Qed.

Lemma tab_head d overall (rest : page unit) shown r :
  passed_over d "positive_aspects" ->
  Dict.get d "overall_feedback" = Some overall ->
  rest = (shown, r) ->
  (on_page positive <- value (get_or_none (JDict d) "positive_aspects");
   on_page _ <-
     (if truthy positive then
        on_page _ <- show (StSuccess []);
        on_page items <- value (iterate positive);
        for_each (fun item => show (StWrite [item])) items
      else page_ret tt);
   on_page overall <- value (getitem (JDict d) "overall_feedback");
   on_page _ <- show (StInfo [overall]);
   rest)
  = (StInfo [overall] :: shown, r).
Proof.
  unfold passed_over. intros Hpos Hover ->.
  unfold get_or_none, getitem, value, show, page_ret, page_bind.
  by rewrite Hpos, Hover.
Qed.

(** X26: the tab needs "overall_feedback", which a commit does not ask
    for: for a document without it (and without positive aspects, which
    come first) the tab raises [KeyError] before anything is shown. *)
Theorem tab_needs_overall_feedback (d : list (string * json)) :
  passed_over d "positive_aspects" ->
  Dict.get d "overall_feedback" = None ->
  feedback_tab (JDict d) = ([], inl KeyError).
Proof.
  unfold passed_over. intros Hpos Hover.
  unfold feedback_tab, get_or_none, getitem, value, page_bind.
  by rewrite Hpos, Hover.
Qed.

Lemma tab_needs_overall_feedback_witness :
  feedback_tab (JDict [("grade_estimate"%string, JStr "70")]) = ([], inl KeyError).
Proof. apply tab_needs_overall_feedback; reflexivity. Defined.

(** X27: a document with an overall feedback in which the positive aspects
    and the six lists are absent or empty is shown as the overall feedback
    alone, and the tab does not raise. *)
Theorem tab_of_plain_document (d : list (string * json)) (overall : json) :
  Dict.get d "overall_feedback" = Some overall ->
  passed_over d "positive_aspects" ->
  passed_over d "syntax_errors" ->
  passed_over d "logic_errors" ->
  passed_over d "style_issues" ->
  passed_over d "efficiency_concerns" ->
  passed_over d "conceptual_misunderstandings" ->
  passed_over d "suggested_resources" ->
  feedback_tab (JDict d) = ([StInfo [overall]], inr tt).
Proof.
  intros Hover Hpos Hsyn Hlog Hsty Heff Hcon Hres.
  unfold feedback_tab. apply tab_head; [done | done |].
  rewrite !if_nonempty_passed_over by done. reflexivity.
Qed.

Lemma tab_of_plain_document_witness :
  feedback_tab (sample_feedback "85/100") = ([StInfo [JStr "Good work"]], inr tt).
Proof. apply tab_of_plain_document; reflexivity. Defined.

Lemma passed_over_attached timestamp language assignment_name d field :
  is_attached_key field = false ->
  passed_over (attached timestamp language assignment_name d) field <-> passed_over d field.
Proof. intros H. unfold passed_over. by rewrite attached_other. Qed.




(** X29: a reply can be accepted by [analyze_code] and still not be
    shown.  A logic error needs only a description to be committed, but
    the tab also reads its affected lines: for a reply with one logic
    error that has a description and no "affected_lines" the call returns
    the feedback, and the tab for the returned document raises [KeyError]
    after the overall feedback and the title of the expander. *)
Theorem accepted_reply_not_shown api_key timestamp code language student_id assignment_name
    (d e : list (string * json)) (s : session) (text : string) (g : Z)
    (overall description : json) :
  api_key <> ""%string ->
  Dict.get d "grade_estimate" = Some (JStr text) ->
  grade_of_text text = inr g ->
  Dict.get d "overall_feedback" = Some overall ->
  Dict.get d "logic_errors" = Some (JList [JDict e]) ->
  Dict.get e "description" = Some description ->
  Dict.get e "affected_lines" = None ->
  Dict.get d "conceptual_misunderstandings" = None ->
  passed_over d "positive_aspects" ->
  passed_over d "syntax_errors" ->
  exists s' fj,
    analyze_code api_key (HttpReply 200 (Some (JDict d))) timestamp code language
      student_id assignment_name s = (s', Feedback fj) /\
    feedback_tab fj = ([StInfo [overall]; StExpander [JInt 1]], inl KeyError).
Proof.
  intros Hkey Hest Hg Hover Hlog Hde Hal Hcon Hpos Hsyn.
  eexists _, (JDict (attached timestamp language assignment_name d)). split.
  - rewrite analyze_code_object by done. rewrite commit_object.
    unfold getitem at 1, extract_key_issues, get_or_empty.
    rewrite !attached_other by reflexivity. rewrite Hest, Hlog, Hcon.
    change (default (JList []) (Some (JList [JDict e]))) with (JList [JDict e]).
    change (default (JList []) None) with (JList []).
    cbn [iterate comprehension getitem]. rewrite Hde.
    cbn [app grade_of]. rewrite Hg. reflexivity.
  - unfold feedback_tab. apply tab_head.
    + by apply passed_over_attached.
    + by rewrite attached_other.
    + rewrite (if_nonempty_passed_over _ "syntax_errors")
        by (by apply passed_over_attached).
      unfold if_nonempty at 1, get_or_none, value.
      rewrite attached_other by reflexivity. rewrite Hlog.
      change (default JNull (Some (JList [JDict e]))) with (JList [JDict e]).
      unfold counted_issues, lines_issue.
      cbn -[Dict.get attached if_nonempty]. rewrite Hal. reflexivity.
Qed.

Lemma accepted_reply_not_shown_witness :
  exists s' fj,
    analyze_code "gsk"
      (HttpReply 200
         (Some (JDict [("overall_feedback"%string, JStr "ok");
                       ("grade_estimate"%string, JStr "70/100");
                       ("logic_errors"%string,
                        JList [JDict [("description"%string, JStr "off by one")]])])))
      "2024-05-01 10:00:00" "print(1)" "python" "S1" "A1" initial_session
    = (s', Feedback fj) /\
    feedback_tab fj = ([StInfo [JStr "ok"]; StExpander [JInt 1]], inl KeyError).
Proof.
  apply (accepted_reply_not_shown _ _ _ _ _ _ _ [("description"%string, JStr "off by one")]
           _ "70/100" 70 (JStr "ok") (JStr "off by one"));
    try reflexivity. discriminate.
Defined.

End FeedbackTab.

(** ** History and progress, entry by entry *)

(** X30: in every session reached by registrations and by calls of
    [analyze_code] none of which raised inside the commit, the progress of
    every student runs along the history: the two have the same length,
    and the progress entry at a position has the time and the assignment of
    the history entry at that position and the grade read from its textual
    grade. *)
Theorem progress_follows_history (s : session) :
  reachable no_raise_in_commit s ->
  forall student_id p,
    student_profiles s !! student_id = Some p ->
    Forall2 belongs_to (history p) (progress p).
Proof.
  induction 1 as [|n s Hr IH|k r ts c l id a s s' o Hr IH Hcall Hok]; intros sid p Hp.
  - exfalso. exact (lookup_empty_Some (M := gmap string) sid p Hp).
  - destruct (student_profiles s !! sid) as [q|] eqn:E.
    + rewrite add_student_keeps in Hp by eauto. apply (IH sid). congruence.
    + destruct (decide (sid = n)) as [-> |Hne].
      * unfold add_student in Hp. destruct (String.eqb n ""); [congruence |].
        rewrite ensure_profile_lookup in Hp. unfold profile_before in Hp.
        rewrite E in Hp. injection Hp as <-. constructor.
      * rewrite add_student_lookup_ne in Hp by done. congruence.
  - destruct o as [| | | |fj].
    5:{ apply analyze_code_success in Hcall
          as (d & est & iss & g & _ & _ & _ & _ & _ & Hg & ->).
        destruct (decide (sid = id)) as [-> |Hne].
        - rewrite committed_lookup in Hp. injection Hp as <-.
          cbn [history progress append_progress append_history count_submission].
          apply Forall2_app; [| by repeat constructor].
          unfold profile_before.
          destruct (student_profiles s !! id) as [q|] eqn:E; [by apply (IH id) | constructor].
        - rewrite committed_lookup_ne in Hp by done. by apply (IH sid). }
    all: apply analyze_code_stages in Hcall;
      destruct Hcall as [(-> & _) | [(e1 & _ & Ho) | [(e2 & est & iss & _ & Ho & _)
                       | (fj & est & iss & g & Ho & _)]]];
      try discriminate Ho; try (by apply (IH sid));
      injection Ho as ->; by destruct Hok.
Qed.

Lemma progress_follows_history_witness :
  exists p,
    student_profiles
      (sample_call "90/100" "S1"
         (sample_call "85/100" "S1" (add_student "S1" initial_session)).1).1
      !! "S1"%string = Some p /\
    Forall2 belongs_to (history p) (progress p).
Proof.
  assert (Hr : reachable no_raise_in_commit
                 (sample_call "90/100" "S1"
                    (sample_call "85/100" "S1" (add_student "S1" initial_session)).1).1).
  { apply reachable_call; [apply reachable_call; [repeat constructor | exact I] | exact I]. }
  eexists. split; [reflexivity |].
  exact (progress_follows_history _ Hr "S1"%string _ eq_refl).
Defined.
